(** * Search: parameter broadcasting, validation and bounded retry

    A shallow embedding of [src/search.py] (class [Search]: the methods
    [gpt] and [web]) and the properties of it that the specification
    states.

    Python values are a small universe [pyval]; raising is a [result];
    the two collaborators ([chatgpt_api.scrape_chatgpt] and
    [search_api.search]) and [time.sleep] act on an abstract world [W],
    and every interaction with them is recorded in a log of events. *)

From Stdlib Require Import String Ascii ZArith List Bool Arith Lia.
Import ListNotations.
Local Open Scope string_scope.

(** ** Python values *)

(** The values the two methods can tell apart.  [PStr] is a [str] read as
    a sequence of code points below 256; [PObj] stands for an object of any
    other class (a float, a dict, a tuple, ...), of which the code observes
    the truth value only. *)
#[warnings="-register-all"]
Inductive pyval : Type :=
| PNone
| PBool (b : bool)
| PInt (n : Z)
| PStr (s : string)
| PList (l : list pyval)
| PObj (truth : bool).

(** [bool(v)]: None, False, 0, the empty string and the empty list are
    falsy. *)
Definition truthy (v : pyval) : bool :=
  match v with
  | PNone => false
  | PBool b => b
  | PInt n => negb (n =? 0)%Z
  | PStr EmptyString => false
  | PStr (String _ _) => true
  | PList [] => false
  | PList (_ :: _) => true
  | PObj t => t
  end.

Definition is_none (v : pyval) : bool :=
  match v with PNone => true | _ => false end.

(** [isinstance(v, str)] *)
Definition isinstance_str (v : pyval) : bool :=
  match v with PStr _ => true | _ => false end.

(** [isinstance(v, list)] *)
Definition isinstance_list (v : pyval) : bool :=
  match v with PList _ => true | _ => false end.

(** [isinstance(v, bool)] *)
Definition isinstance_bool (v : pyval) : bool :=
  match v with PBool _ => true | _ => false end.

(** [isinstance(v, int)]: in Python [bool] is a subclass of [int]. *)
Definition isinstance_int (v : pyval) : bool :=
  match v with PInt _ | PBool _ => true | _ => false end.

(** The integer an [int] instance stands for ([True] is 1, [False] is 0). *)
Definition int_value (v : pyval) : Z :=
  match v with
  | PInt n => n
  | PBool true => 1
  | _ => 0
  end%Z.

(** ** Exceptions and results *)

Inductive exn : Type :=
| ValidationError (msg : string)
| APIError (msg : string)
| ValueError (msg : string)
| TypeError (msg : string)
| OtherError (cls msg : string).

Inductive result (A : Type) : Type :=
| Return (a : A)
| Raise (e : exn).
Arguments Return {A} a.
Arguments Raise {A} e.

Definition bind {A B : Type} (r : result A) (k : A -> result B) : result B :=
  match r with
  | Return a => k a
  | Raise e => Raise e
  end.

Notation "x <- c ;; k" := (bind c (fun x => k))
  (at level 61, c at next level, right associativity).
Notation "c ;;; k" := (bind c (fun _ => k))
  (at level 61, right associativity).

(** [except APIError] catches exactly the instances of [APIError]. *)
Definition is_APIError (e : exn) : bool :=
  match e with APIError _ => true | _ => false end.

Definition is_ValidationError (e : exn) : bool :=
  match e with ValidationError _ => true | _ => false end.

(** ** The pattern [^[A-Z]{2}$] *)

(** The character class [[A-Z]]: the code points 65 to 90. *)
Definition in_A_Z (a : ascii) : bool :=
  ((65 <=? nat_of_ascii a) && (nat_of_ascii a <=? 90))%nat.

Definition newline : ascii := ascii_of_nat 10.

(** [$] without [re.MULTILINE]: it matches at the end of the string and
    also just before a newline that is the last character. *)
Definition re_dollar (rest : string) : bool :=
  match rest with
  | EmptyString => true
  | String a EmptyString => Ascii.eqb a newline
  | _ => false
  end.

(** Whether [re.match(r"^[A-Z]{2}$", s)] returns a match object, for a
    [str] [s]. *)
Definition re_match_A_Z_2 (s : string) : bool :=
  match s with
  | String a (String b rest) => in_A_Z a && in_A_Z b && re_dollar rest
  | _ => false
  end.

(** [re.match(r"^[A-Z]{2}$", c)] for any value: an argument that is not a
    string raises [TypeError] (the text is CPython's up to 3.10). *)
Definition re_match (c : pyval) : result bool :=
  match c with
  | PStr s => Return (re_match_A_Z_2 s)
  | _ => Raise (TypeError "expected string or bytes-like object")
  end.

(** ** [gpt]: normalisation and validation (lines 41-78) *)

(** The keyword arguments of [chatgpt_api.scrape_chatgpt]. *)
Record scrape_kwargs : Type := {
  kw_prompts : list pyval;
  kw_countries : list pyval;
  kw_additional_prompts : list pyval;
  kw_web_searches : list pyval;
  kw_sync : pyval;
  kw_timeout : pyval
}.

(** Lines 41-49. *)
Definition normalize_prompts (prompt : pyval) : result (list pyval) :=
  prompts <- match prompt with
             | PStr _ => Return [prompt]
             | PList l =>
                 if forallb isinstance_str l then Return l
                 else Raise (ValidationError
                   "Invalid prompt input: must be a non-empty string or list of strings.")
             | _ => Raise (ValidationError
                   "Invalid prompt input: must be a non-empty string or list of strings.")
             end ;;
  match prompts with
  | [] => Raise (ValidationError "At least one prompt is required.")
  | _ :: _ => Return prompts
  end.

(** The helper [_normalize] (lines 52-59), closed over [prompts]. *)
Definition _normalize (prompts : list pyval) (param : pyval) (name : string)
  : result (list pyval) :=
  match param with
  | PNone => Return (repeat PNone (length prompts))
  | PList l =>
      if negb (length l =? length prompts)%nat then
        Raise (ValidationError (name ++ " list must have the same length as prompts."))
      else Return l
  | _ => Return (repeat param (length prompts))
  end.

(** Lines 66-68. *)
Fixpoint check_countries (countries : list pyval) : result unit :=
  match countries with
  | [] => Return tt
  | c :: rest =>
      if truthy c then
        m <- re_match c ;;
        if negb m then
          Raise (ValidationError
            ("Invalid country code '" ++
             match c with PStr s => s | _ => EmptyString end ++
             "'. Must be 2 uppercase letters."))
        else check_countries rest
      else check_countries rest
  end.

(** Lines 69-71. *)
Fixpoint check_secondary_prompts (secondary_prompts : list pyval) : result unit :=
  match secondary_prompts with
  | [] => Return tt
  | s :: rest =>
      if negb (is_none s) && negb (isinstance_str s) then
        Raise (ValidationError "Secondary prompts must be strings.")
      else check_secondary_prompts rest
  end.

(** Lines 72-74. *)
Fixpoint check_web_searches (web_searches : list pyval) : result unit :=
  match web_searches with
  | [] => Return tt
  | w :: rest =>
      if negb (isinstance_bool w) then
        Raise (ValidationError "Web search flags must be boolean.")
      else check_web_searches rest
  end.

(** Lines 75-76. *)
Definition check_timeout (timeout : pyval) : result unit :=
  if negb (is_none timeout)
     && (negb (isinstance_int timeout) || (int_value timeout <=? 0)%Z)
  then Raise (ValidationError "Timeout must be a positive integer.")
  else Return tt.

(** Line 78: [timeout or (65 if sync else 30)]. *)
Definition resolve_timeout (timeout sync : pyval) : pyval :=
  if truthy timeout then timeout
  else if truthy sync then PInt 65 else PInt 30.

(** Everything [gpt] does before its retry loop: the keyword arguments it
    will hand to the delegate, or the exception it raises. *)
Definition gpt_prepare (prompt country secondaryPrompt webSearch sync timeout : pyval)
  : result scrape_kwargs :=
  prompts <- normalize_prompts prompt ;;
  countries <- _normalize prompts country "country" ;;
  secondary_prompts <- _normalize prompts secondaryPrompt "secondary_prompt" ;;
  web_searches <- _normalize prompts webSearch "web_search" ;;
  check_countries countries ;;;
  check_secondary_prompts secondary_prompts ;;;
  check_web_searches web_searches ;;;
  check_timeout timeout ;;;
  Return {| kw_prompts := prompts;
            kw_countries := countries;
            kw_additional_prompts := secondary_prompts;
            kw_web_searches := web_searches;
            kw_sync := sync;
            kw_timeout := resolve_timeout timeout sync |}.

(** ** The world: collaborators, sleeping and the log *)

Inductive event : Type :=
| CallScrape (kw : scrape_kwargs)
| Sleep (seconds : Z)
| CallSearch (args : list pyval).

Record state (W : Type) : Type := {
  world : W;
  log : list event
}.
Arguments world {W} s.
Arguments log {W} s.

Definition record {W : Type} (ev : event) (w : W) (st : state W) : state W :=
  {| world := w; log := log st ++ [ev] |}.

Definition max_retries : nat := 3.

Section Gpt.

Context {W : Type}.

(** [self._c.chatgpt_api.scrape_chatgpt(...)]: a value or an exception,
    and the world after the call. *)
Variable scrape_chatgpt : scrape_kwargs -> W -> result pyval * W.

(** [time.sleep(seconds)] *)
Variable sleep : Z -> W -> W.

(** Lines 82-97, over the attempts [range(max_retries)] still to come.
    A loop that runs out of attempts falls off the end of the function,
    which returns [None]. *)
Fixpoint retry_loop (attempts : list nat) (kw : scrape_kwargs) (st : state W)
  : result pyval * state W :=
  match attempts with
  | [] => (Return PNone, st)
  | attempt :: rest =>
      let (r, w1) := scrape_chatgpt kw (world st) in
      let st1 := record (CallScrape kw) w1 st in
      match r with
      | Return v => (Return v, st1)
      | Raise e =>
          if is_APIError e then
            if (attempt <? max_retries - 1)%nat then
              retry_loop rest kw (record (Sleep 2) (sleep 2 w1) st1)
            else (Raise e, st1)
          else (Raise e, st1)
      end
  end.

Definition gpt (prompt country secondaryPrompt webSearch sync timeout : pyval)
           (st : state W) : result pyval * state W :=
  match gpt_prepare prompt country secondaryPrompt webSearch sync timeout with
  | Raise e => (Raise e, st)
  | Return kw => retry_loop (seq 0 max_retries) kw st
  end.

End Gpt.

(** The defaults of [gpt]'s optional parameters (lines 18-22). *)
Module GptDefault.
Definition country : pyval := PNone.
Definition secondaryPrompt : pyval := PNone.
Definition webSearch : pyval := PBool false.
Definition sync : pyval := PBool true.
Definition timeout : pyval := PNone.
End GptDefault.

(** ** [web] (lines 100-132) *)

(** [str.isspace] of one code point below 256: tab to carriage return,
    the four separators 28 to 31, the space, NEL (133) and the no-break
    space (160). *)
Definition isspace (a : ascii) : bool :=
  let n := nat_of_ascii a in
  (((9 <=? n) && (n <=? 13)) || ((28 <=? n) && (n <=? 31))
   || (n =? 32) || (n =? 133) || (n =? 160))%nat.

Fixpoint lstrip (s : string) : string :=
  match s with
  | EmptyString => EmptyString
  | String a rest => if isspace a then lstrip rest else s
  end.

Fixpoint rstrip (s : string) : string :=
  match s with
  | EmptyString => EmptyString
  | String a rest =>
      match rstrip rest with
      | EmptyString => if isspace a then EmptyString else String a EmptyString
      | kept => String a kept
      end
  end.

(** [s.strip()] *)
Definition strip (s : string) : string := rstrip (lstrip s).

(** [isinstance(q, str) and q.strip()], as [all] reads it. *)
Definition nonblank_str (q : pyval) : bool :=
  match q with
  | PStr s => truthy (PStr (strip s))
  | _ => false
  end.

(** Lines 118-127. *)
Definition check_query (query : pyval) : result unit :=
  if negb (truthy query) then
    Raise (ValueError "The 'query' parameter cannot be None or empty.")
  else
    match query with
    | PStr s =>
        if negb (truthy (PStr (strip s))) then
          Raise (ValueError "The 'query' string cannot be empty or whitespace.")
        else Return tt
    | PList l =>
        if negb (forallb nonblank_str l) then
          Raise (ValueError "All queries in the list must be non-empty strings.")
        else Return tt
    | _ =>
        Raise (TypeError "The 'query' parameter must be a string or a list of strings.")
    end.

(** What [web] reads of the client [self._c]: reading an attribute gives
    a value, or raises when the client has no such attribute. *)
Record client : Type := {
  serp_zone : result pyval;
  DEFAULT_MAX_WORKERS : result pyval
}.

(** [given or fallback], the right operand evaluated only when needed. *)
Definition or_else (given : pyval) (fallback : result pyval) : result pyval :=
  if truthy given then Return given else fallback.

(** Lines 115-131: the positional arguments [web] hands to
    [search_api.search], or the exception raised before the call. *)
Definition web_prepare (c : client)
    (query search_engine zone response_format method country data_format
     async_request max_workers timeout parse : pyval) : result (list pyval) :=
  zone' <- or_else zone (serp_zone c) ;;
  max_workers' <- or_else max_workers (DEFAULT_MAX_WORKERS c) ;;
  check_query query ;;;
  Return [query; search_engine; zone'; response_format; method; country;
          data_format; async_request; max_workers'; timeout; parse].

Section Web.

Context {W : Type}.

Variable c : client.

(** [self._c.search_api.search(...)] *)
Variable search : list pyval -> W -> result pyval * W.

Definition web (query search_engine zone response_format method country
                data_format async_request max_workers timeout parse : pyval)
           (st : state W) : result pyval * state W :=
  match web_prepare c query search_engine zone response_format method country
                    data_format async_request max_workers timeout parse with
  | Raise e => (Raise e, st)
  | Return args =>
      let (r, w1) := search args (world st) in
      (r, record (CallSearch args) w1 st)
  end.

End Web.

(** The defaults of [web]'s optional parameters (lines 103-112). *)
Module WebDefault.
Definition search_engine : pyval := PStr "google".
Definition zone : pyval := PNone.
Definition response_format : pyval := PStr "raw".
Definition method : pyval := PStr "GET".
Definition country : pyval := PStr EmptyString.
Definition data_format : pyval := PStr "html".
Definition async_request : pyval := PBool false.
Definition max_workers : pyval := PNone.
Definition timeout : pyval := PNone.
Definition parse : pyval := PBool false.
End WebDefault.

(** ** A scripted delegate, for concrete runs *)

(** A delegate that answers from a script: the world is the list of
    answers still to give; past its end it returns [None]. *)
Definition scripted (kw : scrape_kwargs) (w : list (result pyval))
  : result pyval * list (result pyval) :=
  match w with
  | [] => (Return PNone, [])
  | r :: rest => (r, rest)
  end.

Definition no_sleep (seconds : Z) (w : list (result pyval)) := w.

Definition start {W : Type} (w : W) : state W := {| world := w; log := [] |}.

(** ** Vocabulary of the properties *)

Local Open Scope list_scope.

(** A value [re.match] can be asked about without a [TypeError]: a string,
    or a falsy value, which line 67 skips. *)
Definition str_or_falsy (v : pyval) : bool :=
  isinstance_str v || negb (truthy v).

(** The [country] argument holds only such values, as its annotation
    [Union[str, List[str]] = None] promises. *)
Definition country_matchable (country : pyval) : bool :=
  match country with
  | PList l => forallb str_or_falsy l
  | v => str_or_falsy v
  end.

(** The outcome of a delegate call is caught by [except APIError]. *)
Definition raises_APIError (r : result pyval) : bool :=
  match r with
  | Raise e => is_APIError e
  | Return _ => false
  end.

(** The state after the events [evs], the world left as [w]. *)
Definition after {W : Type} (w : W) (st : state W) (evs : list event) : state W :=
  {| world := w; log := log st ++ evs |}.

(** The events of one delegate call followed by [retries] retries, each
    retry a two-second sleep and another call. *)
Definition attempts_log (kw : scrape_kwargs) (retries : nat) : list event :=
  CallScrape kw :: concat (repeat [Sleep 2; CallScrape kw] retries).

Section Attempts.

Context {W : Type}.
Variable scrape_chatgpt : scrape_kwargs -> W -> result pyval * W.
Variable sleep : Z -> W -> W.

(** The three attempts the loop can make from [st], each in the world
    the previous one and the sleep left. *)
Definition attempt1 (kw : scrape_kwargs) (st : state W) :=
  scrape_chatgpt kw (world st).
Definition attempt2 (kw : scrape_kwargs) (st : state W) :=
  scrape_chatgpt kw (sleep 2 (snd (attempt1 kw st))).
Definition attempt3 (kw : scrape_kwargs) (st : state W) :=
  scrape_chatgpt kw (sleep 2 (snd (attempt2 kw st))).

End Attempts.

(** A positive integer, as Python has it: an [int] above zero, or [True],
    which is the [int] 1. *)
Definition positive_int (v : pyval) : Prop :=
  (exists n, v = PInt n /\ (0 < n)%Z) \/ v = PBool true.

(** The keyword arguments of the call
    [gpt(prompt=["hi","bye"], country="US", webSearch=[True, False])]. *)
Definition hi_bye_kwargs : scrape_kwargs :=
  {| kw_prompts := [PStr "hi"; PStr "bye"];
     kw_countries := [PStr "US"; PStr "US"];
     kw_additional_prompts := [PNone; PNone];
     kw_web_searches := [PBool true; PBool false];
     kw_sync := PBool true;
     kw_timeout := PInt 65 |}.

(** The keyword arguments of [gpt(prompt="")], the call that hands the
    delegate an empty prompt. *)
Definition empty_prompt_kwargs : scrape_kwargs :=
  {| kw_prompts := [PStr EmptyString];
     kw_countries := [PNone];
     kw_additional_prompts := [PNone];
     kw_web_searches := [PBool false];
     kw_sync := PBool true;
     kw_timeout := PInt 65 |}.

(** The three-character string [U], [S], newline. *)
Definition US_newline : string := String "U" (String "S" (String newline EmptyString)).

(** The keyword arguments of [gpt(prompt="hi", country="US\n")]. *)
Definition US_newline_kwargs : scrape_kwargs :=
  {| kw_prompts := [PStr "hi"];
     kw_countries := [PStr US_newline];
     kw_additional_prompts := [PNone];
     kw_web_searches := [PBool false];
     kw_sync := PBool true;
     kw_timeout := PInt 65 |}.

(** Every character of [s] is whitespace (so is the empty string). *)
Fixpoint blank (s : string) : bool :=
  match s with
  | EmptyString => true
  | String a rest => isspace a && blank rest
  end.

(** The four exceptions of lines 118-127, by line: 119, 122, 125, 127. *)
Definition empty_query_error : exn :=
  ValueError "The 'query' parameter cannot be None or empty.".
Definition blank_string_error : exn :=
  ValueError "The 'query' string cannot be empty or whitespace.".
Definition list_element_error : exn :=
  ValueError "All queries in the list must be non-empty strings.".
Definition wrong_type_error : exn :=
  TypeError "The 'query' parameter must be a string or a list of strings.".

(** A list element [all] rejects: not a string, or a string of whitespace
    only (the empty string among them). *)
Definition bad_element (q : pyval) : Prop :=
  isinstance_str q = false \/ exists s, q = PStr s /\ blank s = true.

(** A client with both attributes set, and a search delegate that answers
    with the arguments it was given. *)
Definition example_client : client :=
  {| serp_zone := Return (PStr "serp_zone_1");
     DEFAULT_MAX_WORKERS := Return (PInt 10) |}.

(** The scripted delegate with nothing scripted, nothing logged. *)
Definition idle : state (list (result pyval)) := start [].

Definition echo_search (args : list pyval) (w : unit) : result pyval * unit :=
  (Return (PList args), tt).

(** *** What an accepted call looks like, stated on the values *)

(** The prompt list of a [prompt] argument: a string alone, or a
    non-empty list of strings as it is. *)
Definition prompts_of (prompt : pyval) (prompts : list pyval) : Prop :=
  (exists s, prompt = PStr s /\ prompts = [PStr s]) \/
  (prompt = PList prompts /\ prompts <> [] /\
   Forall (fun p => exists s, p = PStr s) prompts).

(** The broadcast of a companion to [N] prompts: a list of length [N] as
    it is, or anything that is not a list, [N] times. *)
Definition broadcast_of (N : nat) (param : pyval) (l : list pyval) : Prop :=
  (param = PList l /\ length l = N) \/
  (isinstance_list param = false /\ l = repeat param N).

(** A country entry line 67 lets through: a falsy value, or a string the
    pattern matches. *)
Definition country_ok (c : pyval) : Prop :=
  truthy c = false \/ exists s, c = PStr s /\ re_match_A_Z_2 s = true.

(** A secondary prompt line 70 lets through. *)
Definition secondary_ok (s : pyval) : Prop :=
  s = PNone \/ exists t, s = PStr t.

(** A web-search flag line 73 lets through. *)
Definition web_search_ok (w : pyval) : Prop :=
  exists b, w = PBool b.

(** A timeout line 75 lets through. *)
Definition timeout_ok (timeout : pyval) : Prop :=
  timeout = PNone \/ positive_int timeout.

(** The timeout the delegate gets for an accepted [timeout]. *)
Definition forwarded_timeout (timeout sync : pyval) : pyval :=
  match timeout with
  | PNone => PInt (if truthy sync then 65 else 30)
  | _ => timeout
  end.

(** The conditions under which [gpt] accepts its arguments and hands [kw]
    to the delegate. *)
Definition accepted (prompt country secondaryPrompt webSearch sync timeout : pyval)
           (kw : scrape_kwargs) : Prop :=
  let N := length (kw_prompts kw) in
  prompts_of prompt (kw_prompts kw) /\
  broadcast_of N country (kw_countries kw) /\
  broadcast_of N secondaryPrompt (kw_additional_prompts kw) /\
  broadcast_of N webSearch (kw_web_searches kw) /\
  Forall country_ok (kw_countries kw) /\
  Forall secondary_ok (kw_additional_prompts kw) /\
  Forall web_search_ok (kw_web_searches kw) /\
  timeout_ok timeout /\
  kw_sync kw = sync /\
  kw_timeout kw = forwarded_timeout timeout sync.

(** A query [web] hands to the delegate: a string with a character that
    is not whitespace, or a non-empty list of such strings. *)
Definition query_ok (query : pyval) : Prop :=
  (exists s, query = PStr s /\ blank s = false) \/
  (exists l, query = PList l /\ l <> [] /\
             Forall (fun q => exists s, q = PStr s /\ blank s = false) l).

(** The message of line 57 for the parameter called [name]. *)
Definition length_error (name : string) : exn :=
  ValidationError (name ++ " list must have the same length as prompts.")%string.

(** The message of line 68 for the country [s]. *)
Definition country_error (s : string) : exn :=
  ValidationError
    ("Invalid country code '" ++ s ++ "'. Must be 2 uppercase letters.")%string.

(** A client on which neither attribute can be read. *)
Definition bare_client : client :=
  {| serp_zone := Raise (OtherError "AttributeError" "serp_zone");
     DEFAULT_MAX_WORKERS := Raise (OtherError "AttributeError" "DEFAULT_MAX_WORKERS") |}.

(** The keyword arguments of [gpt(prompt="hi", country="US")]. *)
Definition hi_US_kwargs : scrape_kwargs :=
  {| kw_prompts := [PStr "hi"];
     kw_countries := [PStr "US"];
     kw_additional_prompts := [PNone];
     kw_web_searches := [PBool false];
     kw_sync := PBool true;
     kw_timeout := PInt 65 |}.

(** The prompt and the three companions pass lines 41-74 and broadcast to
    [ps], [cs], [ss] and [ws]. *)
Definition valid_broadcast (prompt country secondaryPrompt webSearch : pyval)
           (ps cs ss ws : list pyval) : Prop :=
  prompts_of prompt ps /\
  broadcast_of (length ps) country cs /\
  broadcast_of (length ps) secondaryPrompt ss /\
  broadcast_of (length ps) webSearch ws /\
  Forall country_ok cs /\
  Forall secondary_ok ss /\
  Forall web_search_ok ws.

(** ** Facts about normalisation and validation *)

Lemma normalize_prompts_Raise prompt e :
  normalize_prompts prompt = Raise e -> is_ValidationError e = true.
Proof.
  unfold normalize_prompts.
  destruct prompt as [| b | n | s | l | t]; cbn; try (intros [= <-]; reflexivity).
  destruct (forallb isinstance_str l); cbn.
  - destruct l; intros [= <-]; reflexivity.
  - intros [= <-]; reflexivity.
Qed.

Lemma normalize_prompts_Return prompt prompts :
  normalize_prompts prompt = Return prompts ->
  prompts <> [] /\ forallb isinstance_str prompts = true /\
  (prompt = PList prompts \/ exists s, prompt = PStr s /\ prompts = [PStr s]).
Proof.
  unfold normalize_prompts.
  destruct prompt as [| b | n | s | l | t]; cbn; try discriminate.
  - intros [= <-]. repeat split; [discriminate | right; eauto].
  - destruct (forallb isinstance_str l) eqn:Hall; cbn; [| discriminate].
    destruct l as [| p l']; [discriminate |].
    intros [= <-]. repeat split; [discriminate | exact Hall | left; reflexivity].
Qed.

Lemma _normalize_Raise prompts param name e :
  _normalize prompts param name = Raise e -> is_ValidationError e = true.
Proof.
  unfold _normalize.
  destruct param as [| b | n | s | l | t]; try discriminate.
  destruct (negb (length l =? length prompts)%nat); [| discriminate].
  intros [= <-]; reflexivity.
Qed.

Lemma _normalize_Return prompts param name l :
  _normalize prompts param name = Return l ->
  length l = length prompts /\
  (param = PList l \/
   (isinstance_list param = false /\ l = repeat param (length prompts))).
Proof.
  unfold _normalize.
  destruct param as [| b | n | s | l' | t];
    try (intros [= <-]; split; [apply repeat_length | right; split; reflexivity]).
  destruct (length l' =? length prompts)%nat eqn:Hlen; cbn; [| discriminate].
  intros [= <-]. apply Nat.eqb_eq in Hlen. split; [exact Hlen | left; reflexivity].
Qed.

Lemma _normalize_scalar prompts param name :
  isinstance_list param = false ->
  _normalize prompts param name = Return (repeat param (length prompts)).
Proof.
  destruct param; cbn; intros H; try reflexivity; discriminate.
Qed.

Lemma _normalize_mismatch prompts l name :
  length l <> length prompts ->
  _normalize prompts (PList l) name =
  Raise (ValidationError (name ++ " list must have the same length as prompts.")%string).
Proof.
  intros H. unfold _normalize.
  apply Nat.eqb_neq in H. rewrite H. reflexivity.
Qed.

Lemma check_countries_Raise countries e :
  forallb str_or_falsy countries = true ->
  check_countries countries = Raise e -> is_ValidationError e = true.
Proof.
  induction countries as [| c rest IH]; cbn [check_countries forallb].
  - discriminate.
  - intros Hok. apply andb_true_iff in Hok as [Hc Hrest].
    destruct (truthy c) eqn:Ht; [| auto].
    unfold str_or_falsy in Hc. rewrite Ht, orb_false_r in Hc.
    destruct c as [| b | n | s | l | t]; try discriminate.
    cbn [re_match bind].
    destruct (re_match_A_Z_2 s); cbn [negb]; [auto |].
    intros [= <-]; reflexivity.
Qed.

Lemma check_secondary_prompts_Raise secondary_prompts e :
  check_secondary_prompts secondary_prompts = Raise e ->
  is_ValidationError e = true.
Proof.
  induction secondary_prompts as [| s rest IH]; cbn [check_secondary_prompts].
  - discriminate.
  - destruct (negb (is_none s) && negb (isinstance_str s)); [| exact IH].
    intros [= <-]; reflexivity.
Qed.

Lemma check_web_searches_Raise web_searches e :
  check_web_searches web_searches = Raise e -> is_ValidationError e = true.
Proof.
  induction web_searches as [| w rest IH]; cbn [check_web_searches].
  - discriminate.
  - destruct (negb (isinstance_bool w)); [| exact IH].
    intros [= <-]; reflexivity.
Qed.


Lemma check_timeout_Raise timeout e :
  check_timeout timeout = Raise e -> is_ValidationError e = true.
Proof.
  unfold check_timeout.
  destruct (negb (is_none timeout) && _); [| discriminate].
  intros [= <-]; reflexivity.
Qed.

(** What [check_timeout] lets through: no timeout, a positive [int], or
    [True] (an [int] instance equal to 1). *)
Lemma check_timeout_Return timeout :
  check_timeout timeout = Return tt ->
  timeout = PNone \/ (exists n, timeout = PInt n /\ (0 < n)%Z) \/
  timeout = PBool true.
Proof.
  unfold check_timeout.
  destruct timeout as [| [|] | n | s | l | t]; cbn; try discriminate; auto.
  destruct (n <=? 0)%Z eqn:Hn; [discriminate |].
  intros _. right; left. exists n. split; [reflexivity | lia].
Qed.

Lemma bind_Return {A B : Type} (r : result A) (k : A -> result B) (b : B) :
  bind r k = Return b -> exists a, r = Return a /\ k a = Return b.
Proof.
  destruct r as [a | e]; cbn; [eauto | discriminate].
Qed.

Lemma bind_Raise {A B : Type} (r : result A) (k : A -> result B) (e : exn) :
  bind r k = Raise e -> r = Raise e \/ exists a, r = Return a /\ k a = Raise e.
Proof.
  destruct r as [a | e']; cbn; [eauto | intros [= ->]; auto].
Qed.

(** An accepted call went through every step of lines 41-78. *)
Lemma gpt_prepare_Return prompt country secondaryPrompt webSearch sync timeout kw :
  gpt_prepare prompt country secondaryPrompt webSearch sync timeout = Return kw ->
  normalize_prompts prompt = Return (kw_prompts kw) /\
  _normalize (kw_prompts kw) country "country" = Return (kw_countries kw) /\
  _normalize (kw_prompts kw) secondaryPrompt "secondary_prompt"
    = Return (kw_additional_prompts kw) /\
  _normalize (kw_prompts kw) webSearch "web_search" = Return (kw_web_searches kw) /\
  check_countries (kw_countries kw) = Return tt /\
  check_secondary_prompts (kw_additional_prompts kw) = Return tt /\
  check_web_searches (kw_web_searches kw) = Return tt /\
  check_timeout timeout = Return tt /\
  kw_sync kw = sync /\
  kw_timeout kw = resolve_timeout timeout sync.
Proof.
  unfold gpt_prepare. intros H.
  apply bind_Return in H as (ps & Hps & H).
  apply bind_Return in H as (cs & Hcs & H).
  apply bind_Return in H as (ss & Hss & H).
  apply bind_Return in H as (ws & Hws & H).
  apply bind_Return in H as ([] & Hcc & H).
  apply bind_Return in H as ([] & Hcsp & H).
  apply bind_Return in H as ([] & Hcw & H).
  apply bind_Return in H as ([] & Hct & H).
  injection H as <-. cbn. auto 10.
Qed.

(** A rejected call: the exception is a [ValidationError], unless the
    three broadcasts went through and [check_countries] raised it. *)
Lemma gpt_prepare_Raise prompt country secondaryPrompt webSearch sync timeout e :
  gpt_prepare prompt country secondaryPrompt webSearch sync timeout = Raise e ->
  is_ValidationError e = true \/
  exists prompts countries secondary_prompts web_searches,
    normalize_prompts prompt = Return prompts /\
    _normalize prompts country "country" = Return countries /\
    _normalize prompts secondaryPrompt "secondary_prompt" = Return secondary_prompts /\
    _normalize prompts webSearch "web_search" = Return web_searches /\
    check_countries countries = Raise e.
Proof.
  unfold gpt_prepare. intros H.
  apply bind_Raise in H as [H | (ps & Hps & H)];
    [left; eapply normalize_prompts_Raise; eauto |].
  apply bind_Raise in H as [H | (cs & Hcs & H)];
    [left; eapply _normalize_Raise; eauto |].
  apply bind_Raise in H as [H | (ss & Hss & H)];
    [left; eapply _normalize_Raise; eauto |].
  apply bind_Raise in H as [H | (ws & Hws & H)];
    [left; eapply _normalize_Raise; eauto |].
  apply bind_Raise in H as [H | ([] & Hcc & H)];
    [right; exists ps, cs, ss, ws; auto |].
  apply bind_Raise in H as [H | ([] & Hcsp & H)];
    [left; eapply check_secondary_prompts_Raise; eauto |].
  apply bind_Raise in H as [H | ([] & Hcw & H)];
    [left; eapply check_web_searches_Raise; eauto |].
  apply bind_Raise in H as [H | ([] & Hct & H)];
    [left; eapply check_timeout_Raise; eauto | discriminate].
Qed.

Lemma _normalize_matchable prompts country name countries :
  country_matchable country = true ->
  _normalize prompts country name = Return countries ->
  forallb str_or_falsy countries = true.
Proof.
  intros Hok H. apply _normalize_Return in H as [_ [-> | [Hl ->]]].
  - exact Hok.
  - apply forallb_forall. intros x Hx. apply repeat_spec in Hx. subst x.
    destruct country; try exact Hok; discriminate.
Qed.

(** With a well-typed [country], whatever lines 41-78 raise is a
    [ValidationError]. *)
Lemma gpt_prepare_Raise_ValidationError
      prompt country secondaryPrompt webSearch sync timeout e :
  country_matchable country = true ->
  gpt_prepare prompt country secondaryPrompt webSearch sync timeout = Raise e ->
  exists msg, e = ValidationError msg.
Proof.
  intros Hok H.
  assert (Hv : is_ValidationError e = true).
  { apply gpt_prepare_Raise in H as [H | (ps & cs & ss & ws & _ & Hcs & _ & _ & H)];
      [exact H |].
    eapply check_countries_Raise; [| exact H].
    eapply _normalize_matchable; eauto. }
  destruct e; try discriminate. eauto.
Qed.

(** ** Facts about the retry loop *)

Lemma attempts_log_calls kw retries k :
  In (CallScrape k) (attempts_log kw retries) -> k = kw.
Proof.
  unfold attempts_log. intros [H | H]; [congruence |].
  induction retries as [| n IH]; cbn in H; [contradiction |].
  destruct H as [H | [H | H]]; [discriminate | congruence | auto].
Qed.

Section RetryFacts.

Context {W : Type}.
Variable scrape_chatgpt : scrape_kwargs -> W -> result pyval * W.
Variable sleep : Z -> W -> W.

Lemma retry_loop_range kw st :
  retry_loop scrape_chatgpt sleep (seq 0 max_retries) kw st =
  if raises_APIError (fst (attempt1 scrape_chatgpt kw st)) then
    if raises_APIError (fst (attempt2 scrape_chatgpt sleep kw st)) then
      (fst (attempt3 scrape_chatgpt sleep kw st),
       after (snd (attempt3 scrape_chatgpt sleep kw st)) st (attempts_log kw 2))
    else
      (fst (attempt2 scrape_chatgpt sleep kw st),
       after (snd (attempt2 scrape_chatgpt sleep kw st)) st (attempts_log kw 1))
  else
    (fst (attempt1 scrape_chatgpt kw st),
     after (snd (attempt1 scrape_chatgpt kw st)) st (attempts_log kw 0)).
Proof.
  unfold attempt3, attempt2, attempt1, after, attempts_log, max_retries.
  cbn.
  destruct (scrape_chatgpt kw (world st)) as [r1 w1]; cbn.
  destruct r1 as [v1 | e1]; cbn; [reflexivity |].
  destruct (is_APIError e1); [| reflexivity].
  destruct (scrape_chatgpt kw (sleep 2 w1)) as [r2 w2]; cbn.
  destruct r2 as [v2 | e2]; cbn.
  - unfold record; cbn. rewrite <- !app_assoc. reflexivity.
  - destruct (is_APIError e2);
      [| unfold record; cbn; rewrite <- !app_assoc; reflexivity].
    destruct (scrape_chatgpt kw (sleep 2 w2)) as [r3 w3]; cbn.
    destruct r3 as [v3 | e3]; [| destruct (is_APIError e3)];
      unfold record; cbn; rewrite <- !app_assoc; reflexivity.
Qed.

(** An accepted call logs one call and at most two retries, all with the
    prepared keyword arguments. *)
Lemma gpt_accepted_log prompt country secondaryPrompt webSearch sync timeout kw st :
  gpt_prepare prompt country secondaryPrompt webSearch sync timeout = Return kw ->
  exists retries,
    retries < max_retries /\
    log (snd (gpt scrape_chatgpt sleep prompt country secondaryPrompt
                  webSearch sync timeout st))
    = log st ++ attempts_log kw retries.
Proof.
  intros Hp. unfold gpt. rewrite Hp, retry_loop_range.
  destruct (raises_APIError (fst (attempt1 scrape_chatgpt kw st)));
    [destruct (raises_APIError (fst (attempt2 scrape_chatgpt sleep kw st))) |].
  - exists 2. split; [unfold max_retries; lia | reflexivity].
  - exists 1. split; [unfold max_retries; lia | reflexivity].
  - exists 0. split; [unfold max_retries; lia | reflexivity].
Qed.

Lemma gpt_rejected prompt country secondaryPrompt webSearch sync timeout e st :
  gpt_prepare prompt country secondaryPrompt webSearch sync timeout = Raise e ->
  gpt scrape_chatgpt sleep prompt country secondaryPrompt webSearch sync timeout st
  = (Raise e, st).
Proof.
  intros Hp. unfold gpt. rewrite Hp. reflexivity.
Qed.

(** With a well-typed [country], a rejected call raises a
    [ValidationError] in the state it started from. *)
Lemma gpt_raises_ValidationError
      prompt country secondaryPrompt webSearch sync timeout e st :
  country_matchable country = true ->
  gpt_prepare prompt country secondaryPrompt webSearch sync timeout = Raise e ->
  exists msg,
    gpt scrape_chatgpt sleep prompt country secondaryPrompt webSearch sync timeout st
    = (Raise (ValidationError msg), st).
Proof.
  intros Hok Hp. rewrite (gpt_rejected _ _ _ _ _ _ _ _ Hp).
  apply gpt_prepare_Raise_ValidationError in Hp as [msg ->]; [| exact Hok].
  exists msg. reflexivity.
Qed.

End RetryFacts.

(** ** [gpt]: the specification's claims *)

Section GptClaims.

Context {W : Type}.
Variable scrape_chatgpt : scrape_kwargs -> W -> result pyval * W.
Variable sleep : Z -> W -> W.

(** C1.  The call [gpt(prompt=["hi","bye"], country="US",
    webSearch=[True, False])], every other parameter at its default, when
    the delegate's first answer is not an [APIError]: the delegate is
    called exactly once, with [prompts=["hi","bye"]],
    [countries=["US","US"]], [web_searches=[True, False]],
    [additional_prompts=[None, None]] (and [sync=True], [timeout=65]);
    nothing else is logged, and [gpt] ends as that one call ended, with its
    value or its exception unchanged. *)
Theorem gpt_hi_bye_delegates_once (st : state W) :
  raises_APIError (fst (scrape_chatgpt hi_bye_kwargs (world st))) = false ->
  gpt scrape_chatgpt sleep
      (PList [PStr "hi"; PStr "bye"]) (PStr "US") GptDefault.secondaryPrompt
      (PList [PBool true; PBool false]) GptDefault.sync GptDefault.timeout st
  = (fst (scrape_chatgpt hi_bye_kwargs (world st)),
     after (snd (scrape_chatgpt hi_bye_kwargs (world st))) st
           [CallScrape hi_bye_kwargs]).
Proof.
  intros Hok. unfold gpt.
  replace (gpt_prepare _ _ _ _ _ _) with (Return hi_bye_kwargs)
    by (vm_compute; reflexivity).
  rewrite retry_loop_range. unfold attempt1. rewrite Hok. reflexivity.
Qed.

(** C2.  For a call that passes validation, with keyword arguments [kw]:
    - a first attempt that does not raise [APIError] ends [gpt] with that
      attempt's outcome after one call and no sleep (so an exception of
      another type propagates at once);
    - a first attempt that raises [APIError] is followed by a sleep of 2
      seconds and a second attempt, whose outcome, if not an [APIError],
      ends [gpt];
    - two attempts that raise [APIError] are followed by a second sleep of
      2 seconds and a third attempt, and [gpt] ends as the third attempt
      ends, whatever its outcome: a value is returned after exactly two
      sleeps, an [APIError] is re-raised as caught, with no sleep and no
      call after it.
    In every case at most three calls are logged. *)
Theorem gpt_retry_policy prompt country secondaryPrompt webSearch sync timeout kw
        (st : state W) :
  gpt_prepare prompt country secondaryPrompt webSearch sync timeout = Return kw ->
  let out := gpt scrape_chatgpt sleep prompt country secondaryPrompt webSearch
                 sync timeout st in
  let a1 := scrape_chatgpt kw (world st) in
  let a2 := scrape_chatgpt kw (sleep 2 (snd a1)) in
  let a3 := scrape_chatgpt kw (sleep 2 (snd a2)) in
  (raises_APIError (fst a1) = false ->
   out = (fst a1, after (snd a1) st [CallScrape kw])) /\
  (raises_APIError (fst a1) = true -> raises_APIError (fst a2) = false ->
   out = (fst a2, after (snd a2) st [CallScrape kw; Sleep 2; CallScrape kw])) /\
  (raises_APIError (fst a1) = true -> raises_APIError (fst a2) = true ->
   out = (fst a3, after (snd a3) st
            [CallScrape kw; Sleep 2; CallScrape kw; Sleep 2; CallScrape kw])) /\
  (exists evs, log (snd out) = log st ++ evs /\
     length (filter (fun ev => match ev with CallScrape _ => true | _ => false end)
                    evs) <= 3).
Proof.
  intros Hp out a1 a2 a3.
  assert (Hout : out = retry_loop scrape_chatgpt sleep (seq 0 max_retries) kw st).
  { unfold out, gpt. rewrite Hp. reflexivity. }
  rewrite retry_loop_range in Hout.
  fold a1 in Hout. unfold attempt2, attempt3, attempt1 in Hout.
  fold a1 in Hout. fold a2 in Hout. fold a3 in Hout.
  repeat split.
  - intros H1. rewrite Hout, H1. reflexivity.
  - intros H1 H2. rewrite Hout, H1, H2. reflexivity.
  - intros H1 H2. rewrite Hout, H1, H2. reflexivity.
  - rewrite Hout.
    destruct (raises_APIError (fst a1)); [destruct (raises_APIError (fst a2)) |];
      eexists; (split; [reflexivity | cbn; lia]).
Qed.

(** C3.  With a list of [N] prompts, a [country], [secondaryPrompt] or
    [webSearch] given as a list of another length makes [gpt] raise
    [ValidationError] with nothing logged: no delegate call, no sleep.
    A companion that is not a list is replicated [N] times by
    [_normalize] ([None] to [N] times [None]), and that list is what an
    accepted call hands to the delegate. *)
Theorem gpt_broadcast_rule :
  (forall prompts country secondaryPrompt webSearch sync timeout l (st : state W),
      length l <> length prompts ->
      country = PList l \/ secondaryPrompt = PList l \/ webSearch = PList l ->
      exists msg,
        gpt scrape_chatgpt sleep (PList prompts) country secondaryPrompt webSearch
            sync timeout st
        = (Raise (ValidationError msg), st)) /\
  (forall prompts param name,
      isinstance_list param = false ->
      _normalize prompts param name = Return (repeat param (length prompts))) /\
  (forall prompts name,
      _normalize prompts PNone name = Return (repeat PNone (length prompts))) /\
  (forall prompt country secondaryPrompt webSearch sync timeout kw,
      gpt_prepare prompt country secondaryPrompt webSearch sync timeout = Return kw ->
      let N := length (kw_prompts kw) in
      (isinstance_list country = false -> kw_countries kw = repeat country N) /\
      (isinstance_list secondaryPrompt = false ->
       kw_additional_prompts kw = repeat secondaryPrompt N) /\
      (isinstance_list webSearch = false -> kw_web_searches kw = repeat webSearch N)).
Proof.
  split; [| split; [| split]].
  - intros prompts country secondaryPrompt webSearch sync timeout l st Hlen Hwhich.
    assert (Hno : forall ps cs ss ws,
               normalize_prompts (PList prompts) = Return ps ->
               _normalize ps country "country" = Return cs ->
               _normalize ps secondaryPrompt "secondary_prompt" = Return ss ->
               _normalize ps webSearch "web_search" = Return ws -> False).
    { intros ps cs ss ws Hps Hcs Hss Hws.
      apply normalize_prompts_Return in Hps as (_ & _ & [[= <-] | (s & [=] & _)]).
      destruct Hwhich as [-> | [-> | ->]];
        [rewrite _normalize_mismatch in Hcs by exact Hlen
        | rewrite _normalize_mismatch in Hss by exact Hlen
        | rewrite _normalize_mismatch in Hws by exact Hlen]; discriminate. }
    destruct (gpt_prepare (PList prompts) country secondaryPrompt webSearch
                          sync timeout) as [kw | e] eqn:Hp.
    + exfalso. apply gpt_prepare_Return in Hp as (Hps & Hcs & Hss & Hws & _).
      eapply Hno; eauto.
    + rewrite (gpt_rejected _ _ _ _ _ _ _ _ _ _ Hp).
      apply gpt_prepare_Raise in Hp as [Hv | (ps & cs & ss & ws & Hps & Hcs & Hss & Hws & _)].
      * destruct e; try discriminate. eauto.
      * exfalso. eapply Hno; eauto.
  - intros prompts param name. apply _normalize_scalar.
  - reflexivity.
  - intros prompt country secondaryPrompt webSearch sync timeout kw Hp N.
    apply gpt_prepare_Return in Hp as (_ & Hcs & Hss & Hws & _).
    repeat split; intros Hl;
      [apply _normalize_Return in Hcs as [_ [-> | [_ ->]]]
      | apply _normalize_Return in Hss as [_ [-> | [_ ->]]]
      | apply _normalize_Return in Hws as [_ [-> | [_ ->]]]];
      try discriminate; reflexivity.
Qed.


(** C4, at the failing input [gpt(prompt="")]: the empty string is
    accepted as a prompt, and the delegate is called with
    [prompts=[""]]. *)
Theorem gpt_empty_prompt_reaches_delegate (st : state W) :
  gpt_prepare (PStr EmptyString) GptDefault.country GptDefault.secondaryPrompt
              GptDefault.webSearch GptDefault.sync GptDefault.timeout
  = Return empty_prompt_kwargs /\
  exists retries,
    log (snd (gpt scrape_chatgpt sleep (PStr EmptyString) GptDefault.country
                  GptDefault.secondaryPrompt GptDefault.webSearch
                  GptDefault.sync GptDefault.timeout st))
    = log st ++ CallScrape empty_prompt_kwargs
               :: concat (repeat [Sleep 2; CallScrape empty_prompt_kwargs] retries).
Proof.
  assert (Hp : gpt_prepare (PStr EmptyString) GptDefault.country
                 GptDefault.secondaryPrompt GptDefault.webSearch
                 GptDefault.sync GptDefault.timeout
               = Return empty_prompt_kwargs) by reflexivity.
  split; [exact Hp |].
  destruct (gpt_accepted_log scrape_chatgpt sleep _ _ _ _ _ _ _ st Hp)
    as (retries & _ & Hlog).
  exists retries. exact Hlog.
Qed.

(** C5, at the failing input [gpt(prompt="hi", country="US\n")]: the
    pattern's [$] matches before the final newline, so the
    three-character country is accepted and handed to the delegate. *)
Theorem gpt_country_trailing_newline_reaches_delegate (st : state W) :
  re_match (PStr US_newline) = Return true /\
  gpt_prepare (PStr "hi") (PStr US_newline) GptDefault.secondaryPrompt
              GptDefault.webSearch GptDefault.sync GptDefault.timeout
  = Return US_newline_kwargs /\
  exists retries,
    log (snd (gpt scrape_chatgpt sleep (PStr "hi") (PStr US_newline)
                  GptDefault.secondaryPrompt GptDefault.webSearch
                  GptDefault.sync GptDefault.timeout st))
    = log st ++ CallScrape US_newline_kwargs
               :: concat (repeat [Sleep 2; CallScrape US_newline_kwargs] retries).
Proof.
  assert (Hp : gpt_prepare (PStr "hi") (PStr US_newline) GptDefault.secondaryPrompt
                 GptDefault.webSearch GptDefault.sync GptDefault.timeout
               = Return US_newline_kwargs) by reflexivity.
  split; [reflexivity | split; [exact Hp |]].
  destruct (gpt_accepted_log scrape_chatgpt sleep _ _ _ _ _ _ _ st Hp)
    as (retries & _ & Hlog).
  exists retries. exact Hlog.
Qed.

End GptClaims.

(** ** Facts about [strip] *)

Lemma blank_lstrip s : blank (lstrip s) = blank s.
Proof.
  induction s as [| a rest IH]; cbn [lstrip]; [reflexivity |].
  destruct (isspace a) eqn:Ha; [| reflexivity].
  rewrite IH. cbn [blank]. rewrite Ha. reflexivity.
Qed.

Lemma rstrip_empty s : rstrip s = EmptyString <-> blank s = true.
Proof.
  induction s as [| a rest IH]; cbn [rstrip blank]; [tauto |].
  destruct (rstrip rest) as [| b kept].
  - destruct (isspace a); cbn [andb].
    + split; [intros _; apply IH; reflexivity | reflexivity].
    + split; discriminate.
  - split; [discriminate |].
    intros H. apply andb_true_iff in H as [_ H]. apply IH in H. discriminate.
Qed.

Lemma strip_empty s : strip s = EmptyString <-> blank s = true.
Proof.
  unfold strip. rewrite rstrip_empty, blank_lstrip. tauto.
Qed.

(** [s.strip()] is truthy exactly when [s] has a character that is not
    whitespace. *)
Lemma truthy_strip s : truthy (PStr (strip s)) = negb (blank s).
Proof.
  destruct (blank s) eqn:Hb.
  - apply strip_empty in Hb. rewrite Hb. reflexivity.
  - destruct (strip s) eqn:Hs; [| reflexivity].
    apply strip_empty in Hs. congruence.
Qed.

Lemma blank_truthy s : blank s = false -> truthy (PStr s) = true.
Proof.
  destruct s; [discriminate | reflexivity].
Qed.

(** ** Facts about [check_query] *)

Lemma nonblank_str_false q : bad_element q -> nonblank_str q = false.
Proof.
  intros [Hq | (s & -> & Hs)].
  - destruct q; try reflexivity; discriminate.
  - cbn [nonblank_str]. rewrite truthy_strip, Hs. reflexivity.
Qed.

Lemma nonblank_str_true q :
  (exists s, q = PStr s /\ blank s = false) -> nonblank_str q = true.
Proof.
  intros (s & -> & Hs). cbn [nonblank_str]. rewrite truthy_strip, Hs. reflexivity.
Qed.

Lemma check_query_falsy query :
  truthy query = false -> check_query query = Raise empty_query_error.
Proof.
  intros H. unfold check_query. rewrite H. reflexivity.
Qed.

Lemma check_query_blank_string s :
  s <> EmptyString -> blank s = true ->
  check_query (PStr s) = Raise blank_string_error.
Proof.
  intros Hne Hb. unfold check_query.
  rewrite truthy_strip, Hb.
  destruct s as [| a rest]; [congruence | reflexivity].
Qed.

Lemma check_query_wrong_type query :
  truthy query = true -> isinstance_str query = false ->
  isinstance_list query = false ->
  check_query query = Raise wrong_type_error.
Proof.
  intros Ht Hs Hl. unfold check_query. rewrite Ht. cbn [negb].
  destruct query; try reflexivity; discriminate.
Qed.

Lemma check_query_bad_element l q :
  In q l -> bad_element q -> check_query (PList l) = Raise list_element_error.
Proof.
  intros Hin Hbad. unfold check_query.
  destruct l as [| x l']; [contradiction |]. cbn [truthy negb].
  destruct (forallb nonblank_str (x :: l')) eqn:Hall; [| reflexivity].
  rewrite forallb_forall in Hall. apply Hall in Hin.
  rewrite (nonblank_str_false _ Hbad) in Hin. discriminate.
Qed.

Lemma check_query_string s :
  blank s = false -> check_query (PStr s) = Return tt.
Proof.
  intros Hb. unfold check_query.
  rewrite truthy_strip, Hb, (blank_truthy _ Hb). reflexivity.
Qed.

Lemma check_query_list l :
  l <> [] -> (forall q, In q l -> exists s, q = PStr s /\ blank s = false) ->
  check_query (PList l) = Return tt.
Proof.
  intros Hne Hall. unfold check_query.
  destruct l as [| x l']; [congruence |]. cbn [truthy negb].
  replace (forallb nonblank_str (x :: l')) with true; [reflexivity |].
  symmetry. apply forallb_forall. intros q Hq. apply nonblank_str_true, Hall, Hq.
Qed.

(** ** [gpt]: further properties *)

Lemma check_countries_Return countries s :
  check_countries countries = Return tt ->
  In (PStr s) countries -> s <> EmptyString -> re_match_A_Z_2 s = true.
Proof.
  induction countries as [| c rest IH]; cbn [check_countries In]; [tauto |].
  intros Hc [-> | Hin] Hne.
  - destruct s as [| a s']; [congruence |]. cbn [truthy re_match bind] in Hc.
    destruct (re_match_A_Z_2 (String a s')); [reflexivity | discriminate].
  - apply IH; [| exact Hin | exact Hne].
    destruct (truthy c); [| exact Hc].
    destruct (re_match c) as [[|] | e]; cbn [bind negb] in Hc;
      [exact Hc | discriminate | discriminate].
Qed.

(** What the pattern accepts: two letters of [A-Z], and nothing after
    them but, possibly, one final newline. *)
Theorem re_match_A_Z_2_spec s :
  re_match_A_Z_2 s = true <->
  exists a b, in_A_Z a = true /\ in_A_Z b = true /\
              (s = String a (String b EmptyString) \/
               s = String a (String b (String newline EmptyString))).
Proof.
  split.
  - destruct s as [| a [| b rest]]; cbn [re_match_A_Z_2]; try discriminate.
    intros H. apply andb_true_iff in H as [H Hrest].
    apply andb_true_iff in H as [Ha Hb].
    exists a, b. split; [exact Ha | split; [exact Hb |]].
    destruct rest as [| n [| x y]]; cbn [re_dollar] in Hrest;
      [left; reflexivity | | discriminate].
    apply Ascii.eqb_eq in Hrest. subst n. right. reflexivity.
  - intros (a & b & Ha & Hb & [-> | ->]); cbn [re_match_A_Z_2 re_dollar];
      rewrite Ha, Hb; [reflexivity |].
    rewrite Ascii.eqb_refl. reflexivity.
Qed.

Section GptFurther.

Context {W : Type}.
Variable scrape_chatgpt : scrape_kwargs -> W -> result pyval * W.
Variable sleep : Z -> W -> W.

(** A [prompt] that is the empty list, a list with an element that is not
    a string, or neither a string nor a list makes [gpt] raise
    [ValidationError], nothing logged. *)
Theorem gpt_rejects_malformed_prompt
        prompt country secondaryPrompt webSearch sync timeout (st : state W) :
  prompt = PList [] \/
  (exists l x, prompt = PList l /\ In x l /\ isinstance_str x = false) \/
  (isinstance_str prompt = false /\ isinstance_list prompt = false) ->
  exists msg,
    gpt scrape_chatgpt sleep prompt country secondaryPrompt webSearch sync timeout st
    = (Raise (ValidationError msg), st).
Proof.
  intros Hshape.
  assert (Hn : exists msg, normalize_prompts prompt = Raise (ValidationError msg)).
  { destruct Hshape as [-> | [(l & x & -> & Hin & Hx) | [Hs Hl]]].
    - eexists. reflexivity.
    - unfold normalize_prompts.
      destruct (forallb isinstance_str l) eqn:Hall.
      + rewrite forallb_forall in Hall. apply Hall in Hin. congruence.
      + eexists. reflexivity.
    - destruct prompt; try discriminate; eexists; reflexivity. }
  destruct Hn as [msg Hn]. exists msg.
  apply gpt_rejected. unfold gpt_prepare. rewrite Hn. reflexivity.
Qed.

(** A [country] string that is not empty and that the pattern does not
    match, alone or in a list of well-typed entries, makes [gpt] raise
    [ValidationError], nothing logged. *)
Theorem gpt_rejects_unmatched_country
        prompt country secondaryPrompt webSearch sync timeout s (st : state W) :
  country_matchable country = true ->
  country = PStr s \/ (exists l, country = PList l /\ In (PStr s) l) ->
  s <> EmptyString ->
  re_match_A_Z_2 s = false ->
  exists msg,
    gpt scrape_chatgpt sleep prompt country secondaryPrompt webSearch sync timeout st
    = (Raise (ValidationError msg), st).
Proof.
  intros Hok Hentry Hne Hno.
  destruct (gpt_prepare prompt country secondaryPrompt webSearch sync timeout)
    as [kw | e] eqn:Hp.
  - exfalso.
    apply gpt_prepare_Return in Hp as (Hps & Hcs & _ & _ & Hcc & _).
    assert (Hin : In (PStr s) (kw_countries kw)).
    { apply normalize_prompts_Return in Hps as (Hnil & _).
      apply _normalize_Return in Hcs as [_ [Hl | [Hscalar Hrep]]].
      - destruct Hentry as [-> | (l & -> & Hin)]; [discriminate |].
        injection Hl as <-. exact Hin.
      - destruct Hentry as [-> | (l & -> & _)]; [| discriminate].
        rewrite Hrep. destruct (kw_prompts kw); [congruence | left; reflexivity]. }
    rewrite (check_countries_Return _ _ Hcc Hin Hne) in Hno. discriminate.
  - eapply gpt_raises_ValidationError; eassumption.
Qed.

(** A single string prompt with scalar companions that pass validation:
    the delegate gets one-element lists holding the scalars. *)
Theorem gpt_single_prompt_broadcast
        p country secondaryPrompt webSearch sync timeout kw :
  isinstance_list country = false ->
  isinstance_list secondaryPrompt = false ->
  isinstance_list webSearch = false ->
  gpt_prepare (PStr p) country secondaryPrompt webSearch sync timeout = Return kw ->
  kw_prompts kw = [PStr p] /\ kw_countries kw = [country] /\
  kw_additional_prompts kw = [secondaryPrompt] /\ kw_web_searches kw = [webSearch].
Proof.
  intros Hc Hs Hw Hp.
  apply gpt_prepare_Return in Hp as (Hps & Hcs & Hss & Hws & _).
  injection Hps as Hps. rewrite <- Hps in Hcs, Hss, Hws.
  rewrite _normalize_scalar in Hcs, Hss, Hws by assumption.
  injection Hcs as <-. injection Hss as <-. injection Hws as <-.
  auto.
Qed.

(** [timeout=True] passes line 75 ([True] is an [int] above zero) and is
    handed to the delegate as it is. *)
Theorem gpt_timeout_True_forwarded :
  gpt_prepare (PStr "hi") GptDefault.country GptDefault.secondaryPrompt
              GptDefault.webSearch GptDefault.sync (PBool true)
  = Return {| kw_prompts := [PStr "hi"]; kw_countries := [PNone];
              kw_additional_prompts := [PNone]; kw_web_searches := [PBool false];
              kw_sync := PBool true; kw_timeout := PBool true |}.
Proof. reflexivity. Qed.

End GptFurther.

(** ** [web]: the specification's claims *)

Section WebClaims.

Context {W : Type}.
Variable c : client.
Variable search : list pyval -> W -> result pyval * W.

Lemma web_rejected query search_engine zone response_format method country
      data_format async_request max_workers timeout parse e (st : state W) :
  web_prepare c query search_engine zone response_format method country
              data_format async_request max_workers timeout parse = Raise e ->
  web c search query search_engine zone response_format method country
      data_format async_request max_workers timeout parse st = (Raise e, st).
Proof.
  intros Hp. unfold web. rewrite Hp. reflexivity.
Qed.

Lemma web_accepted query search_engine zone response_format method country
      data_format async_request max_workers timeout parse args (st : state W) :
  web_prepare c query search_engine zone response_format method country
              data_format async_request max_workers timeout parse = Return args ->
  web c search query search_engine zone response_format method country
      data_format async_request max_workers timeout parse st
  = (fst (search args (world st)),
     after (snd (search args (world st))) st [CallSearch args]).
Proof.
  intros Hp. unfold web. rewrite Hp.
  destruct (search args (world st)) as [r w1]. reflexivity.
Qed.

(** C8, as amended.  Once [zone] and [max_workers] are resolved, [web]
    ends in one of five ways, the first four before any delegate call
    (nothing is logged):
    - a falsy [query] ([None], the empty string, and also 0, [False], the
      empty list) raises the empty/null [ValueError];
    - a non-empty string of whitespace only raises a [ValueError] of its
      own;
    - a truthy [query] that is neither a string nor a list (123) raises
      the [TypeError];
    - a list with an element that is not a string, or is an empty or
      whitespace-only string, raises the list-element [ValueError];
    - a string with a character that is not whitespace, or a non-empty
      list of such strings, is handed to the delegate as it is, in one
      call, whose outcome is [web]'s.
    The empty/null, wrong-type and list-element errors are pairwise
    distinct. *)
Theorem web_query_validation
        query search_engine zone response_format method country data_format
        async_request max_workers timeout parse zone' max_workers' (st : state W) :
  or_else zone (serp_zone c) = Return zone' ->
  or_else max_workers (DEFAULT_MAX_WORKERS c) = Return max_workers' ->
  let out := web c search query search_engine zone response_format method country
                 data_format async_request max_workers timeout parse st in
  let args := [query; search_engine; zone'; response_format; method; country;
               data_format; async_request; max_workers'; timeout; parse] in
  (truthy query = false -> out = (Raise empty_query_error, st)) /\
  (forall s, query = PStr s -> s <> EmptyString -> blank s = true ->
             out = (Raise blank_string_error, st)) /\
  (truthy query = true -> isinstance_str query = false ->
   isinstance_list query = false -> out = (Raise wrong_type_error, st)) /\
  (forall l q, query = PList l -> In q l -> bad_element q ->
               out = (Raise list_element_error, st)) /\
  ((exists s, query = PStr s /\ blank s = false) \/
   (exists l, query = PList l /\ l <> [] /\
              forall q, In q l -> exists s, q = PStr s /\ blank s = false) ->
   out = (fst (search args (world st)),
          after (snd (search args (world st))) st [CallSearch args])) /\
  (empty_query_error <> wrong_type_error /\
   empty_query_error <> list_element_error /\
   wrong_type_error <> list_element_error).
Proof.
  intros Hz Hm out args.
  assert (Hprep : web_prepare c query search_engine zone response_format method
                    country data_format async_request max_workers timeout parse
                  = (check_query query ;;; Return args)).
  { unfold web_prepare. rewrite Hz, Hm. reflexivity. }
  assert (Hraise : forall e, check_query query = Raise e -> out = (Raise e, st)).
  { intros e He. apply web_rejected. rewrite Hprep, He. reflexivity. }
  assert (Hcall : check_query query = Return tt ->
                  out = (fst (search args (world st)),
                         after (snd (search args (world st))) st [CallSearch args])).
  { intros He. apply web_accepted. rewrite Hprep, He. reflexivity. }
  split; [| split; [| split; [| split; [| split]]]].
  - intros H. apply Hraise, check_query_falsy, H.
  - intros s -> Hne Hb. apply Hraise, check_query_blank_string; assumption.
  - intros Ht Hs Hl. apply Hraise, check_query_wrong_type; assumption.
  - intros l q -> Hin Hbad. apply Hraise. eapply check_query_bad_element; eauto.
  - intros [(s & -> & Hb) | (l & -> & Hne & Hall)]; apply Hcall.
    + apply check_query_string, Hb.
    + apply check_query_list; assumption.
  - repeat split; discriminate.
Qed.

(** C10.  [zone] and [max_workers] are resolved first, each on its own: a
    falsy [zone] ([None], the empty string) becomes the client's
    [serp_zone], a falsy [max_workers] ([None], 0) the client's
    [DEFAULT_MAX_WORKERS], and a truthy one stays as given; a query that
    passes validation is then handed to the delegate with the two resolved
    values.  The resolution runs before the query is looked at: when
    reading the client's attribute raises, [web] raises that, whatever the
    query. *)
Theorem web_zone_and_workers_defaults :
  (forall query search_engine zone response_format method country data_format
          async_request max_workers timeout parse zone_cfg workers_cfg
          (st : state W),
      serp_zone c = Return zone_cfg ->
      DEFAULT_MAX_WORKERS c = Return workers_cfg ->
      check_query query = Return tt ->
      let zone' := if truthy zone then zone else zone_cfg in
      let max_workers' := if truthy max_workers then max_workers else workers_cfg in
      let args := [query; search_engine; zone'; response_format; method; country;
                   data_format; async_request; max_workers'; timeout; parse] in
      web c search query search_engine zone response_format method country
          data_format async_request max_workers timeout parse st
      = (fst (search args (world st)),
         after (snd (search args (world st))) st [CallSearch args])) /\
  (forall query search_engine zone response_format method country data_format
          async_request max_workers timeout parse e (st : state W),
      truthy zone = false -> serp_zone c = Raise e ->
      web c search query search_engine zone response_format method country
          data_format async_request max_workers timeout parse st = (Raise e, st)) /\
  (forall query search_engine zone response_format method country data_format
          async_request max_workers timeout parse zone' e (st : state W),
      or_else zone (serp_zone c) = Return zone' ->
      truthy max_workers = false -> DEFAULT_MAX_WORKERS c = Raise e ->
      web c search query search_engine zone response_format method country
          data_format async_request max_workers timeout parse st = (Raise e, st)).
Proof.
  split; [| split].
  - intros query search_engine zone response_format method country data_format
           async_request max_workers timeout parse zone_cfg workers_cfg st
           Hz Hw Hq zone' max_workers' args.
    apply web_accepted. unfold web_prepare, or_else. rewrite Hz, Hw, Hq.
    subst args zone' max_workers'.
    destruct (truthy zone), (truthy max_workers); reflexivity.
  - intros query search_engine zone response_format method country data_format
           async_request max_workers timeout parse e st Hz He.
    apply web_rejected. unfold web_prepare, or_else. rewrite Hz, He. reflexivity.
  - intros query search_engine zone response_format method country data_format
           async_request max_workers timeout parse zone' e st Hz Hm He.
    apply web_rejected. unfold web_prepare. rewrite Hz.
    unfold or_else. rewrite Hm, He. reflexivity.
Qed.

End WebClaims.

(** ** Concrete runs *)

(** The delegate answers at once. *)
Lemma gpt_hi_bye_delegates_once_witness :
  raises_APIError (fst (scripted hi_bye_kwargs [Return (PStr "answer")])) = false /\
  gpt scripted no_sleep
      (PList [PStr "hi"; PStr "bye"]) (PStr "US") GptDefault.secondaryPrompt
      (PList [PBool true; PBool false]) GptDefault.sync GptDefault.timeout
      (start [Return (PStr "answer")])
  = (Return (PStr "answer"),
     {| world := []; log := [CallScrape hi_bye_kwargs] |}).
Proof.
  split.
  - reflexivity.
  - exact (gpt_hi_bye_delegates_once scripted no_sleep
             (start [Return (PStr "answer")]) eq_refl).
Defined.

(** Two [APIError]s, then an answer: the third call's value, two sleeps. *)
Lemma gpt_retry_policy_witness :
  gpt_prepare (PStr "hi") PNone PNone (PBool false) (PBool true) PNone
  = Return {| kw_prompts := [PStr "hi"]; kw_countries := [PNone];
              kw_additional_prompts := [PNone]; kw_web_searches := [PBool false];
              kw_sync := PBool true; kw_timeout := PInt 65 |} /\
  gpt scripted no_sleep (PStr "hi") PNone PNone (PBool false) (PBool true) PNone
      (start [Raise (APIError "first"); Raise (APIError "second"); Return (PInt 7)])
  = (Return (PInt 7),
     after [] idle
       (let kw := {| kw_prompts := [PStr "hi"]; kw_countries := [PNone];
                     kw_additional_prompts := [PNone];
                     kw_web_searches := [PBool false];
                     kw_sync := PBool true; kw_timeout := PInt 65 |} in
        [CallScrape kw; Sleep 2; CallScrape kw; Sleep 2; CallScrape kw])).
Proof.
  split.
  - reflexivity.
  - exact (proj1 (proj2 (proj2
             (gpt_retry_policy scripted no_sleep
                (PStr "hi") PNone PNone (PBool false) (PBool true) PNone _
                (start [Raise (APIError "first"); Raise (APIError "second");
                        Return (PInt 7)])
                eq_refl)))
             eq_refl eq_refl).
Defined.

(** Two prompts, one country in a list. *)
Lemma gpt_broadcast_rule_witness :
  length [PStr "US"] <> length [PStr "a"; PStr "b"] /\
  exists msg,
    gpt scripted no_sleep (PList [PStr "a"; PStr "b"]) (PList [PStr "US"]) PNone
        (PBool false) (PBool true) PNone idle
    = (Raise (ValidationError msg), start []).
Proof.
  split.
  - discriminate.
  - apply (proj1 (gpt_broadcast_rule scripted no_sleep)) with (l := [PStr "US"]).
    + discriminate.
    + left. reflexivity.
Defined.


(** C8, the claim as first stated: the query 0 is neither a string nor a
    list, and [web] raises the empty/null error for it, not the wrong-type
    error. *)
Lemma web_query_zero_not_wrong_type :
  isinstance_str (PInt 0) = false /\ isinstance_list (PInt 0) = false /\
  web example_client echo_search (PInt 0) WebDefault.search_engine
      WebDefault.zone WebDefault.response_format WebDefault.method
      WebDefault.country WebDefault.data_format WebDefault.async_request
      WebDefault.max_workers WebDefault.timeout WebDefault.parse (start tt)
  = (Raise empty_query_error, start tt) /\
  web example_client echo_search (PInt 0) WebDefault.search_engine
      WebDefault.zone WebDefault.response_format WebDefault.method
      WebDefault.country WebDefault.data_format WebDefault.async_request
      WebDefault.max_workers WebDefault.timeout WebDefault.parse (start tt)
  <> (Raise wrong_type_error, start tt).
Proof.
  repeat split; discriminate.
Qed.

(** A query of one space raises a fourth error, none of the three the
    claim names. *)
Example web_query_space_fourth_error :
  web example_client echo_search (PStr " ") WebDefault.search_engine
      WebDefault.zone WebDefault.response_format WebDefault.method
      WebDefault.country WebDefault.data_format WebDefault.async_request
      WebDefault.max_workers WebDefault.timeout WebDefault.parse (start tt)
  = (Raise blank_string_error, start tt) /\
  blank_string_error <> empty_query_error /\
  blank_string_error <> wrong_type_error /\
  blank_string_error <> list_element_error.
Proof.
  repeat split; discriminate.
Qed.

(** Three [APIError]s: the third is re-raised after three calls and two
    sleeps; the script's fourth answer is never asked for. *)
Example gpt_three_failures_run :
  gpt scripted no_sleep (PStr "hi") PNone PNone (PBool false) (PBool true) PNone
      (start [Raise (APIError "first"); Raise (APIError "second");
              Raise (APIError "third"); Return (PInt 7)])
  = (Raise (APIError "third"),
     {| world := [Return (PInt 7)];
        log := attempts_log
                 {| kw_prompts := [PStr "hi"]; kw_countries := [PNone];
                    kw_additional_prompts := [PNone];
                    kw_web_searches := [PBool false];
                    kw_sync := PBool true; kw_timeout := PInt 65 |} 2 |}).
Proof. reflexivity. Qed.

(** An exception of another type on the first attempt: one call, no
    sleep. *)
Example gpt_other_exception_run :
  gpt scripted no_sleep (PStr "hi") PNone PNone (PBool false) (PBool true) PNone
      (start [Raise (OtherError "ConnectionError" "reset"); Return (PInt 7)])
  = (Raise (OtherError "ConnectionError" "reset"),
     {| world := [Return (PInt 7)];
        log := attempts_log
                 {| kw_prompts := [PStr "hi"]; kw_countries := [PNone];
                    kw_additional_prompts := [PNone];
                    kw_web_searches := [PBool false];
                    kw_sync := PBool true; kw_timeout := PInt 65 |} 0 |}).
Proof. reflexivity. Qed.

(** The query [["a", "b"]], every other parameter at its default. *)
Lemma web_query_validation_witness :
  or_else WebDefault.zone (serp_zone example_client) = Return (PStr "serp_zone_1") /\
  or_else WebDefault.max_workers (DEFAULT_MAX_WORKERS example_client)
  = Return (PInt 10) /\
  web example_client echo_search (PList [PStr "a"; PStr "b"])
      WebDefault.search_engine WebDefault.zone WebDefault.response_format
      WebDefault.method WebDefault.country WebDefault.data_format
      WebDefault.async_request WebDefault.max_workers WebDefault.timeout
      WebDefault.parse (start tt)
  = (let args := [PList [PStr "a"; PStr "b"]; PStr "google"; PStr "serp_zone_1";
                  PStr "raw"; PStr "GET"; PStr EmptyString; PStr "html";
                  PBool false; PInt 10; PNone; PBool false] in
     (Return (PList args), {| world := tt; log := [CallSearch args] |})).
Proof.
  split; [reflexivity | split; [reflexivity |]].
  apply (proj1 (proj2 (proj2 (proj2 (proj2
           (web_query_validation example_client echo_search
              (PList [PStr "a"; PStr "b"])
              WebDefault.search_engine WebDefault.zone WebDefault.response_format
              WebDefault.method WebDefault.country WebDefault.data_format
              WebDefault.async_request WebDefault.max_workers WebDefault.timeout
              WebDefault.parse (PStr "serp_zone_1") (PInt 10) (start tt)
              eq_refl eq_refl)))))).
  right. exists [PStr "a"; PStr "b"].
  split; [reflexivity | split; [discriminate |]].
  intros q [<- | [<- | []]]; eexists; split; reflexivity.
Defined.

(** [zone=""] and [max_workers=0] with the query ["rocq"]. *)
Lemma web_zone_and_workers_defaults_witness :
  serp_zone example_client = Return (PStr "serp_zone_1") /\
  DEFAULT_MAX_WORKERS example_client = Return (PInt 10) /\
  check_query (PStr "rocq") = Return tt /\
  web example_client echo_search (PStr "rocq") WebDefault.search_engine
      (PStr EmptyString) WebDefault.response_format WebDefault.method
      WebDefault.country WebDefault.data_format WebDefault.async_request
      (PInt 0) WebDefault.timeout WebDefault.parse (start tt)
  = (let args := [PStr "rocq"; PStr "google"; PStr "serp_zone_1";
                  PStr "raw"; PStr "GET"; PStr EmptyString; PStr "html";
                  PBool false; PInt 10; PNone; PBool false] in
     (Return (PList args), {| world := tt; log := [CallSearch args] |})).
Proof.
  split; [reflexivity | split; [reflexivity | split; [reflexivity |]]].
  exact (proj1 (web_zone_and_workers_defaults example_client echo_search)
           (PStr "rocq") WebDefault.search_engine
           (PStr EmptyString) WebDefault.response_format WebDefault.method
           WebDefault.country WebDefault.data_format WebDefault.async_request
           (PInt 0) WebDefault.timeout WebDefault.parse
           (PStr "serp_zone_1") (PInt 10) (start tt) eq_refl eq_refl eq_refl).
Defined.

(** An empty list of prompts. *)
Lemma gpt_rejects_malformed_prompt_witness :
  exists msg,
    gpt scripted no_sleep (PList []) PNone PNone (PBool false) (PBool true) PNone idle
    = (Raise (ValidationError msg), idle).
Proof.
  apply (gpt_rejects_malformed_prompt scripted no_sleep).
  left. reflexivity.
Defined.

(** The country "us". *)
Lemma gpt_rejects_unmatched_country_witness :
  country_matchable (PStr "us") = true /\ "us" <> EmptyString /\
  re_match_A_Z_2 "us" = false /\
  exists msg,
    gpt scripted no_sleep (PStr "hi") (PStr "us") PNone (PBool false) (PBool true)
        PNone idle
    = (Raise (ValidationError msg), idle).
Proof.
  split; [reflexivity | split; [discriminate | split; [reflexivity |]]].
  apply (gpt_rejects_unmatched_country scripted no_sleep) with (s := "us").
  - reflexivity.
  - left. reflexivity.
  - discriminate.
  - reflexivity.
Defined.

(** The prompt "hi" with the country "US". *)
Lemma gpt_single_prompt_broadcast_witness :
  kw_prompts (Build_scrape_kwargs [PStr "hi"] [PStr "US"] [PNone] [PBool false]
                                  (PBool true) (PInt 65)) = [PStr "hi"] /\
  kw_countries (Build_scrape_kwargs [PStr "hi"] [PStr "US"] [PNone] [PBool false]
                                    (PBool true) (PInt 65)) = [PStr "US"] /\
  kw_additional_prompts (Build_scrape_kwargs [PStr "hi"] [PStr "US"] [PNone]
                                             [PBool false] (PBool true) (PInt 65))
  = [PNone] /\
  kw_web_searches (Build_scrape_kwargs [PStr "hi"] [PStr "US"] [PNone] [PBool false]
                                       (PBool true) (PInt 65)) = [PBool false].
Proof.
  exact (gpt_single_prompt_broadcast "hi" (PStr "US") PNone (PBool false)
           (PBool true) PNone _ eq_refl eq_refl eq_refl eq_refl).
Defined.

(** ** Validation, characterised *)

Lemma normalize_prompts_iff prompt prompts :
  normalize_prompts prompt = Return prompts <-> prompts_of prompt prompts.
Proof.
  split.
  - intros H. apply normalize_prompts_Return in H as (Hne & Hall & [-> | (s & -> & ->)]).
    + right. split; [reflexivity | split; [exact Hne |]].
      apply Forall_forall. intros p Hp.
      rewrite forallb_forall in Hall. apply Hall in Hp.
      destruct p; try discriminate. eauto.
    + left. eauto.
  - intros [(s & -> & ->) | (-> & Hne & Hall)]; [reflexivity |].
    unfold normalize_prompts.
    replace (forallb isinstance_str prompts) with true.
    + destruct prompts; [congruence | reflexivity].
    + symmetry. apply forallb_forall. intros p Hp.
      rewrite Forall_forall in Hall. destruct (Hall p Hp) as [s ->]. reflexivity.
Qed.

Lemma _normalize_iff prompts param name l :
  _normalize prompts param name = Return l <->
  broadcast_of (length prompts) param l.
Proof.
  split.
  - intros H. apply _normalize_Return in H as [Hlen [-> | [Hs ->]]].
    + left. auto.
    + right. auto.
  - intros [[-> Hlen] | [Hs ->]].
    + unfold _normalize. apply Nat.eqb_eq in Hlen. rewrite Hlen. reflexivity.
    + apply _normalize_scalar, Hs.
Qed.

Lemma Forall_cons_step {A : Type} (P : A -> Prop) (Q : Prop) (x : A) (l : list A) :
  P x -> (Q <-> Forall P l) -> (Q <-> Forall P (x :: l)).
Proof.
  intros Hx [H1 H2]. split.
  - intros HQ. constructor; auto.
  - intros H. apply H2. inversion H; assumption.
Qed.

Lemma check_countries_iff countries :
  check_countries countries = Return tt <-> Forall country_ok countries.
Proof.
  induction countries as [| c rest IH]; cbn [check_countries].
  - split; [constructor | reflexivity].
  - destruct (truthy c) eqn:Ht.
    + destruct c as [| b | n | s | l | t]; cbn [re_match bind];
        try solve [split; [discriminate |];
                   intros H; apply Forall_inv in H as [Hf | (s & Heq & _)];
                   [congruence | discriminate]].
      destruct (re_match_A_Z_2 s) eqn:Hm; cbn [negb].
      * apply Forall_cons_step; [right; eauto | exact IH].
      * split; [discriminate |].
        intros H. apply Forall_inv in H as [Hf | (s' & Heq & Hm')];
          [congruence |].
        injection Heq as <-. congruence.
    + apply Forall_cons_step; [left; exact Ht | exact IH].
Qed.

Lemma check_secondary_prompts_iff secondary_prompts :
  check_secondary_prompts secondary_prompts = Return tt <->
  Forall secondary_ok secondary_prompts.
Proof.
  induction secondary_prompts as [| s rest IH]; cbn [check_secondary_prompts].
  - split; [constructor | reflexivity].
  - destruct s as [| b | n | t | l | o]; cbn [is_none isinstance_str negb andb];
      try solve [split; [discriminate |];
                 intros H; apply Forall_inv in H as [Heq | (t & Heq)];
                 discriminate].
    + apply Forall_cons_step; [left; reflexivity | exact IH].
    + apply Forall_cons_step; [right; eauto | exact IH].
Qed.

Lemma check_web_searches_iff web_searches :
  check_web_searches web_searches = Return tt <->
  Forall web_search_ok web_searches.
Proof.
  induction web_searches as [| w rest IH]; cbn [check_web_searches].
  - split; [constructor | reflexivity].
  - destruct w as [| b | n | t | l | o]; cbn [isinstance_bool negb];
      try solve [split; [discriminate |];
                 intros H; apply Forall_inv in H as [b Heq]; discriminate].
    apply Forall_cons_step; [exists b; reflexivity | exact IH].
Qed.

Lemma check_timeout_iff timeout :
  check_timeout timeout = Return tt <-> timeout_ok timeout.
Proof.
  split.
  - intros H. apply check_timeout_Return in H as [H | H]; [left | right]; exact H.
  - intros [-> | [(n & -> & Hn) | ->]]; try reflexivity.
    unfold check_timeout. cbn.
    destruct (n <=? 0)%Z eqn:Hle; [| reflexivity].
    apply Z.leb_le in Hle. lia.
Qed.

Lemma resolve_timeout_ok timeout sync :
  timeout_ok timeout ->
  resolve_timeout timeout sync = forwarded_timeout timeout sync /\
  positive_int (forwarded_timeout timeout sync).
Proof.
  intros [-> | [(n & -> & Hn) | ->]].
  - unfold resolve_timeout. cbn [truthy forwarded_timeout].
    destruct (truthy sync); (split; [reflexivity |]);
      left; eexists; (split; [reflexivity | lia]).
  - unfold resolve_timeout. cbn [truthy forwarded_timeout].
    replace (n =? 0)%Z with false by (symmetry; apply Z.eqb_neq; lia).
    split; [reflexivity |]. left. exists n. auto.
  - split; [reflexivity | right; reflexivity].
Qed.

Lemma broadcast_of_length N param l : broadcast_of N param l -> length l = N.
Proof.
  intros [[_ H] | [_ ->]]; [exact H | apply repeat_length].
Qed.

(** Lines 41-78 return [kw] exactly when the arguments are acceptable and
    [kw] is their broadcast. *)
Lemma gpt_prepare_iff prompt country secondaryPrompt webSearch sync timeout kw :
  gpt_prepare prompt country secondaryPrompt webSearch sync timeout = Return kw <->
  accepted prompt country secondaryPrompt webSearch sync timeout kw.
Proof.
  unfold accepted. split.
  - intros H.
    apply gpt_prepare_Return in H
      as (Hps & Hcs & Hss & Hws & Hcc & Hcsp & Hcw & Hct & Hsync & Hto).
    apply normalize_prompts_iff in Hps. apply _normalize_iff in Hcs, Hss, Hws.
    apply check_countries_iff in Hcc. apply check_secondary_prompts_iff in Hcsp.
    apply check_web_searches_iff in Hcw. apply check_timeout_iff in Hct.
    destruct (resolve_timeout_ok timeout sync Hct) as [Hr _].
    rewrite Hr in Hto. auto 12.
  - intros (Hps & Hcs & Hss & Hws & Hcc & Hcsp & Hcw & Hct & Hsync & Hto).
    apply normalize_prompts_iff in Hps.
    apply (proj2 (_normalize_iff _ _ "country" _)) in Hcs.
    apply (proj2 (_normalize_iff _ _ "secondary_prompt" _)) in Hss.
    apply (proj2 (_normalize_iff _ _ "web_search" _)) in Hws.
    apply check_countries_iff in Hcc. apply check_secondary_prompts_iff in Hcsp.
    apply check_web_searches_iff in Hcw.
    destruct (resolve_timeout_ok timeout sync Hct) as [Hr _].
    apply check_timeout_iff in Hct.
    unfold gpt_prepare.
    rewrite Hps; cbn [bind]. rewrite Hcs; cbn [bind]. rewrite Hss; cbn [bind].
    rewrite Hws; cbn [bind]. rewrite Hcc; cbn [bind]. rewrite Hcsp; cbn [bind].
    rewrite Hcw; cbn [bind]. rewrite Hct; cbn [bind].
    rewrite Hr, <- Hto, <- Hsync. destruct kw; reflexivity.
Qed.

Lemma check_countries_first_bad pre s post :
  Forall country_ok pre -> s <> EmptyString -> re_match_A_Z_2 s = false ->
  check_countries (pre ++ PStr s :: post) = Raise (country_error s).
Proof.
  intros Hpre Hne Hno.
  induction pre as [| c pre' IH]; cbn [app check_countries].
  - destruct s as [| a s']; [congruence |]. cbn [truthy re_match bind].
    rewrite Hno. reflexivity.
  - apply Forall_cons_iff in Hpre as [Hc Hpre'].
    destruct Hc as [Hf | (t & -> & Hm)].
    + rewrite Hf. auto.
    + destruct (truthy (PStr t)); [| auto].
      cbn [re_match bind]. rewrite Hm. cbn [negb]. auto.
Qed.

Lemma log_grows_inv {W : Type} (st : state W) (evs evs' : list event) :
  log st ++ evs = log st ++ evs' -> evs = evs'.
Proof. apply app_inv_head. Qed.

Lemma log_same_inv {W : Type} (st : state W) (evs : list event) :
  log st = log st ++ evs -> evs = [].
Proof.
  intros H. rewrite <- (app_nil_r (log st)) in H at 1.
  apply app_inv_head in H. congruence.
Qed.

(** ** [gpt]: properties of accepted calls *)

Section GptAccepted.

Context {W : Type}.
Variable scrape_chatgpt : scrape_kwargs -> W -> result pyval * W.
Variable sleep : Z -> W -> W.

(** What [gpt] logs: nothing for a rejected call, the attempts with the
    prepared arguments for an accepted one. *)
Lemma gpt_log_cases prompt country secondaryPrompt webSearch sync timeout
      (st : state W) evs :
  log (snd (gpt scrape_chatgpt sleep prompt country secondaryPrompt webSearch
                sync timeout st)) = log st ++ evs ->
  (evs = [] /\
   exists e, gpt_prepare prompt country secondaryPrompt webSearch sync timeout
             = Raise e) \/
  (exists kw retries,
      gpt_prepare prompt country secondaryPrompt webSearch sync timeout = Return kw /\
      retries < max_retries /\ evs = attempts_log kw retries).
Proof.
  intros Hlog.
  destruct (gpt_prepare prompt country secondaryPrompt webSearch sync timeout)
    as [kw | e] eqn:Hp.
  - right.
    destruct (gpt_accepted_log scrape_chatgpt sleep _ _ _ _ _ _ _ st Hp)
      as (retries & Hlt & Hacc).
    rewrite Hacc in Hlog. apply log_grows_inv in Hlog.
    exists kw, retries. auto.
  - left. rewrite (gpt_rejected _ _ _ _ _ _ _ _ _ _ Hp) in Hlog. cbn [snd] in Hlog.
    apply log_same_inv in Hlog. eauto.
Qed.

(** [gpt] calls the delegate with [kw] first exactly when the arguments
    are acceptable and [kw] is their broadcast: a str or a non-empty list
    of strs as prompts; each companion a list of that length or a value
    replicated to it; every country falsy or matched by the pattern; every
    secondary prompt [None] or a str; every flag a bool; the timeout
    absent or a positive int. *)
Theorem gpt_calls_delegate_iff_accepted
        prompt country secondaryPrompt webSearch sync timeout kw (st : state W) :
  (exists evs,
      log (snd (gpt scrape_chatgpt sleep prompt country secondaryPrompt webSearch
                    sync timeout st)) = log st ++ CallScrape kw :: evs) <->
  accepted prompt country secondaryPrompt webSearch sync timeout kw.
Proof.
  rewrite <- gpt_prepare_iff. split.
  - intros [evs Hlog].
    apply gpt_log_cases in Hlog as [[Hnil _] | (kw' & retries & Hp & _ & Hevs)].
    + discriminate.
    + unfold attempts_log in Hevs. injection Hevs as -> _. exact Hp.
  - intros Hp.
    destruct (gpt_accepted_log scrape_chatgpt sleep _ _ _ _ _ _ _ st Hp)
      as (retries & _ & Hlog).
    eexists. exact Hlog.
Qed.

(** Whatever the arguments of [gpt], every call it makes to the delegate
    carries at least one prompt, all of them strs, three companion lists
    of the same length as the prompts with validated entries, and a
    timeout that is a positive int. *)
Theorem gpt_delegate_kwargs_invariant
        prompt country secondaryPrompt webSearch sync timeout (st : state W) evs kw :
  log (snd (gpt scrape_chatgpt sleep prompt country secondaryPrompt webSearch
                sync timeout st)) = log st ++ evs ->
  In (CallScrape kw) evs ->
  let N := length (kw_prompts kw) in
  1 <= N /\
  Forall (fun p => exists s, p = PStr s) (kw_prompts kw) /\
  length (kw_countries kw) = N /\
  length (kw_additional_prompts kw) = N /\
  length (kw_web_searches kw) = N /\
  Forall country_ok (kw_countries kw) /\
  Forall secondary_ok (kw_additional_prompts kw) /\
  Forall web_search_ok (kw_web_searches kw) /\
  positive_int (kw_timeout kw).
Proof.
  intros Hlog Hin N.
  apply gpt_log_cases in Hlog as [[-> _] | (kw' & retries & Hp & _ & ->)];
    [contradiction |].
  apply attempts_log_calls in Hin. subst kw'.
  apply gpt_prepare_iff in Hp
    as (Hps & Hcs & Hss & Hws & Hcc & Hcsp & Hcw & Hct & _ & Hto).
  apply broadcast_of_length in Hcs, Hss, Hws.
  destruct (resolve_timeout_ok timeout sync Hct) as [_ Hpos].
  rewrite <- Hto in Hpos.
  assert (Hprompts : 1 <= N /\ Forall (fun p => exists s, p = PStr s) (kw_prompts kw)).
  { subst N. destruct Hps as [(s & _ & ->) | (_ & Hne & Hall)].
    - split; [cbn; lia | constructor; eauto].
    - split; [| exact Hall].
      destruct (kw_prompts kw); [congruence | cbn; lia]. }
  destruct Hprompts as [HN Hstr]. repeat split; assumption.
Qed.

(** Broadcasting is idempotent: calling [gpt] again with the four lists,
    the [sync] and the timeout that an accepted call handed to the
    delegate does what that call did. *)
Theorem gpt_broadcast_idempotent
        prompt country secondaryPrompt webSearch sync timeout kw (st : state W) :
  gpt_prepare prompt country secondaryPrompt webSearch sync timeout = Return kw ->
  gpt scrape_chatgpt sleep (PList (kw_prompts kw)) (PList (kw_countries kw))
      (PList (kw_additional_prompts kw)) (PList (kw_web_searches kw))
      (kw_sync kw) (kw_timeout kw) st
  = gpt scrape_chatgpt sleep prompt country secondaryPrompt webSearch sync timeout st.
Proof.
  intros Hp. unfold gpt at 2. rewrite Hp.
  apply gpt_prepare_iff in Hp
    as (Hps & Hcs & Hss & Hws & Hcc & Hcsp & Hcw & Hct & _ & Hto).
  apply broadcast_of_length in Hcs, Hss, Hws.
  destruct (resolve_timeout_ok timeout sync Hct) as [_ Hpos].
  rewrite <- Hto in Hpos.
  assert (Hagain : gpt_prepare (PList (kw_prompts kw)) (PList (kw_countries kw))
                     (PList (kw_additional_prompts kw)) (PList (kw_web_searches kw))
                     (kw_sync kw) (kw_timeout kw) = Return kw).
  { apply gpt_prepare_iff. unfold accepted.
    repeat split; try assumption; try (left; split; [reflexivity | assumption]).
    - right. split; [reflexivity |].
      destruct Hps as [(s & _ & ->) | (_ & Hne & Hall)];
        [split; [discriminate | constructor; eauto] | auto].
    - right. exact Hpos.
    - destruct Hpos as [(n & -> & _) | ->]; reflexivity. }
  unfold gpt. rewrite Hagain. reflexivity.
Qed.

End GptAccepted.

(** ** [gpt]: the timeout, and validation before delegation *)

Lemma gpt_prepare_valid_broadcast
      prompt country secondaryPrompt webSearch sync timeout ps cs ss ws :
  valid_broadcast prompt country secondaryPrompt webSearch ps cs ss ws ->
  timeout_ok timeout ->
  gpt_prepare prompt country secondaryPrompt webSearch sync timeout
  = Return {| kw_prompts := ps; kw_countries := cs; kw_additional_prompts := ss;
              kw_web_searches := ws; kw_sync := sync;
              kw_timeout := forwarded_timeout timeout sync |}.
Proof.
  intros (Hps & Hcs & Hss & Hws & Hcc & Hcsp & Hcw) Ht.
  apply gpt_prepare_iff. unfold accepted. cbn. auto 12.
Qed.

Lemma check_countries_Raise_class countries e :
  check_countries countries = Raise e ->
  (exists msg, e = ValidationError msg) \/ (exists msg, e = TypeError msg).
Proof.
  induction countries as [| c rest IH]; cbn [check_countries]; [discriminate |].
  destruct (truthy c); [| exact IH].
  destruct c as [| b | n | s | l | t]; cbn [re_match bind];
    try (intros [= <-]; right; eauto).
  destruct (re_match_A_Z_2 s); cbn [negb]; [exact IH |].
  intros [= <-]. left. eauto.
Qed.

(** What lines 41-78 raise: a [ValidationError], or the [TypeError] of
    [re.match] for a [country] that holds a truthy value that is not a
    string. *)
Lemma gpt_prepare_Raise_class
      prompt country secondaryPrompt webSearch sync timeout e :
  gpt_prepare prompt country secondaryPrompt webSearch sync timeout = Raise e ->
  (exists msg, e = ValidationError msg) \/
  ((exists msg, e = TypeError msg) /\ country_matchable country = false).
Proof.
  intros Hp.
  destruct (country_matchable country) eqn:Hok.
  - left. eapply gpt_prepare_Raise_ValidationError; eassumption.
  - apply gpt_prepare_Raise in Hp as [Hv | (ps & cs & ss & ws & _ & _ & _ & _ & Hcc)].
    + left. destruct e; try discriminate. eauto.
    + apply check_countries_Raise_class in Hcc as [Hv | Ht]; auto.
Qed.

Lemma check_countries_first_nonstr pre x post :
  Forall country_ok pre -> truthy x = true -> isinstance_str x = false ->
  exists msg, check_countries (pre ++ x :: post) = Raise (TypeError msg).
Proof.
  intros Hpre Ht Hs.
  induction pre as [| c pre' IH]; cbn [app check_countries].
  - rewrite Ht. destruct x; try discriminate; cbn [re_match bind]; eauto.
  - apply Forall_cons_iff in Hpre as [Hc Hpre'].
    destruct Hc as [Hf | (t & -> & Hm)].
    + rewrite Hf. auto.
    + destruct (truthy (PStr t)); [| auto].
      cbn [re_match bind]. rewrite Hm. cbn [negb]. auto.
Qed.

Section GptRuns.

Context {W : Type}.
Variable scrape_chatgpt : scrape_kwargs -> W -> result pyval * W.
Variable sleep : Z -> W -> W.

(** An accepted call applies the delegate to the prepared arguments in the
    world it started from, logs that call first, ends with it when it does
    not raise [APIError], and never calls with other arguments. *)
Lemma gpt_accepted_run
      prompt country secondaryPrompt webSearch sync timeout kw (st : state W) :
  gpt_prepare prompt country secondaryPrompt webSearch sync timeout = Return kw ->
  let out := gpt scrape_chatgpt sleep prompt country secondaryPrompt webSearch
                 sync timeout st in
  let a1 := scrape_chatgpt kw (world st) in
  (exists evs, log (snd out) = log st ++ CallScrape kw :: evs) /\
  (raises_APIError (fst a1) = false ->
   out = (fst a1, after (snd a1) st [CallScrape kw])) /\
  (forall evs k, log (snd out) = log st ++ evs -> In (CallScrape k) evs -> k = kw).
Proof.
  intros Hp out a1. split; [| split].
  - destruct (gpt_accepted_log scrape_chatgpt sleep _ _ _ _ _ _ _ st Hp)
      as (retries & _ & Hlog).
    eexists. exact Hlog.
  - intros Hok. unfold out, gpt. rewrite Hp, retry_loop_range.
    unfold attempt1. fold a1. rewrite Hok. reflexivity.
  - intros evs k Hlog Hin.
    apply gpt_log_cases in Hlog as [[-> _] | (kw' & retries & Hp' & _ & ->)];
      [contradiction |].
    apply attempts_log_calls in Hin. congruence.
Qed.


(** C9.  Every call to [gpt] goes one of two ways.  Either lines 41-78
    raise an exception, and [gpt] raises it in the state it started from:
    nothing logged, no delegate call, no sleep, no attempt used; the
    exception is a [ValidationError], or the [TypeError] of [re.match] when
    [country] holds a truthy value that is not a string.  Or they accept
    the call, and [gpt] runs one sequence of attempts on the prepared
    arguments: the delegate is applied once, after an [APIError] a second
    time two seconds later, after another a third time, and [gpt] ends as
    the last of these applications ends, the log grown by exactly those
    calls and sleeps. *)
Theorem gpt_validates_before_delegating
        prompt country secondaryPrompt webSearch sync timeout (st : state W) :
  let out := gpt scrape_chatgpt sleep prompt country secondaryPrompt webSearch
                 sync timeout st in
  (exists e,
      gpt_prepare prompt country secondaryPrompt webSearch sync timeout = Raise e /\
      out = (Raise e, st) /\
      ((exists msg, e = ValidationError msg) \/
       ((exists msg, e = TypeError msg) /\ country_matchable country = false)))
  \/
  (exists kw,
      gpt_prepare prompt country secondaryPrompt webSearch sync timeout = Return kw /\
      out =
      if raises_APIError (fst (attempt1 scrape_chatgpt kw st)) then
        if raises_APIError (fst (attempt2 scrape_chatgpt sleep kw st)) then
          (fst (attempt3 scrape_chatgpt sleep kw st),
           after (snd (attempt3 scrape_chatgpt sleep kw st)) st
                 [CallScrape kw; Sleep 2; CallScrape kw; Sleep 2; CallScrape kw])
        else
          (fst (attempt2 scrape_chatgpt sleep kw st),
           after (snd (attempt2 scrape_chatgpt sleep kw st)) st
                 [CallScrape kw; Sleep 2; CallScrape kw])
      else
        (fst (attempt1 scrape_chatgpt kw st),
         after (snd (attempt1 scrape_chatgpt kw st)) st [CallScrape kw])).
Proof.
  intros out.
  destruct (gpt_prepare prompt country secondaryPrompt webSearch sync timeout)
    as [kw | e] eqn:Hp.
  - right. exists kw. split; [reflexivity |].
    unfold out, gpt. rewrite Hp. apply retry_loop_range.
  - left. exists e. split; [reflexivity |]. split.
    + unfold out, gpt. rewrite Hp. reflexivity.
    + eapply gpt_prepare_Raise_class. exact Hp.
Qed.

(** Line 75 reads a [bool] as the [int] it is.  [timeout=False] is
    rejected like 0 (a [ValidationError], nothing logged, for a well-typed
    [country]).  [timeout=True] passes: with a prompt and companions that
    pass validation the delegate is called, and its first call is applied
    to [timeout=True], not to 1 and not to the default. *)
Theorem gpt_bool_timeout_as_int :
  (forall prompt country secondaryPrompt webSearch sync (st : state W),
      country_matchable country = true ->
      exists msg,
        gpt scrape_chatgpt sleep prompt country secondaryPrompt webSearch sync
            (PBool false) st
        = (Raise (ValidationError msg), st)) /\
  (forall prompt country secondaryPrompt webSearch sync ps cs ss ws (st : state W),
      valid_broadcast prompt country secondaryPrompt webSearch ps cs ss ws ->
      let kw := {| kw_prompts := ps; kw_countries := cs;
                   kw_additional_prompts := ss; kw_web_searches := ws;
                   kw_sync := sync; kw_timeout := PBool true |} in
      let out := gpt scrape_chatgpt sleep prompt country secondaryPrompt webSearch
                     sync (PBool true) st in
      let a1 := scrape_chatgpt kw (world st) in
      (exists evs, log (snd out) = log st ++ CallScrape kw :: evs) /\
      (raises_APIError (fst a1) = false ->
       out = (fst a1, after (snd a1) st [CallScrape kw])) /\
      (forall evs k, log (snd out) = log st ++ evs -> In (CallScrape k) evs ->
                     k = kw)).
Proof.
  split.
  - intros prompt country secondaryPrompt webSearch sync st Hok.
    destruct (gpt_prepare prompt country secondaryPrompt webSearch sync (PBool false))
      as [kw | e] eqn:Hp.
    + apply gpt_prepare_Return in Hp as (_ & _ & _ & _ & _ & _ & _ & Hct & _).
      discriminate.
    + eapply gpt_raises_ValidationError; eassumption.
  - intros prompt country secondaryPrompt webSearch sync ps cs ss ws st Hvalid.
    apply gpt_accepted_run.
    apply (gpt_prepare_valid_broadcast _ _ _ _ sync (PBool true) _ _ _ _ Hvalid).
    right. right. reflexivity.
Qed.

(** Countries are checked before secondary prompts, flags and timeout,
    and from left to right.  With valid prompts, companions of the right
    length, and every country before some position falsy or a string the
    pattern matches, the country at that position decides, whatever
    follows it and whatever the other arguments hold: a non-empty string
    the pattern does not match is quoted in the [ValidationError]; a
    truthy value that is not a string makes [re.match] raise
    [TypeError]. *)
Theorem gpt_first_bad_country_decides
        prompt prompts country secondaryPrompt webSearch sync timeout
        pre x post (st : state W) :
  prompts_of prompt prompts ->
  broadcast_of (length prompts) country (pre ++ x :: post) ->
  (exists ss, broadcast_of (length prompts) secondaryPrompt ss) ->
  (exists ws, broadcast_of (length prompts) webSearch ws) ->
  Forall country_ok pre ->
  let out := gpt scrape_chatgpt sleep prompt country secondaryPrompt webSearch
                 sync timeout st in
  (forall s, x = PStr s -> s <> EmptyString -> re_match_A_Z_2 s = false ->
             out = (Raise (country_error s), st)) /\
  (truthy x = true -> isinstance_str x = false ->
   exists msg, out = (Raise (TypeError msg), st)).
Proof.
  intros Hps Hcs [ss Hss] [ws Hws] Hpre out.
  apply normalize_prompts_iff in Hps.
  apply (proj2 (_normalize_iff _ _ "country" _)) in Hcs.
  apply (proj2 (_normalize_iff _ _ "secondary_prompt" _)) in Hss.
  apply (proj2 (_normalize_iff _ _ "web_search" _)) in Hws.
  assert (Hraise : forall e, check_countries (pre ++ x :: post) = Raise e ->
                             out = (Raise e, st)).
  { intros e He. apply gpt_rejected. unfold gpt_prepare.
    rewrite Hps; cbn [bind]. rewrite Hcs; cbn [bind]. rewrite Hss; cbn [bind].
    rewrite Hws; cbn [bind]. rewrite He. reflexivity. }
  split.
  - intros s -> Hne Hno. apply Hraise, check_countries_first_bad; assumption.
  - intros Ht Hs.
    destruct (check_countries_first_nonstr pre x post Hpre Ht Hs) as [msg Hmsg].
    exists msg. apply Hraise, Hmsg.
Qed.

End GptRuns.

(** ** [gpt]: which error, and in which order *)

Section GptErrors.

Context {W : Type}.
Variable scrape_chatgpt : scrape_kwargs -> W -> result pyval * W.
Variable sleep : Z -> W -> W.

(** With a well-typed [country]: a [secondaryPrompt] that is neither
    [None], nor a str, nor a list, or a list with an entry that is neither
    [None] nor a str, makes [gpt] raise [ValidationError], nothing
    logged. *)
Theorem gpt_secondary_prompt_str_or_None
        prompt country secondaryPrompt webSearch sync timeout (x : pyval)
        (st : state W) :
  country_matchable country = true ->
  is_none x = false -> isinstance_str x = false ->
  (secondaryPrompt = x /\ isinstance_list x = false) \/
  (exists l, secondaryPrompt = PList l /\ In x l) ->
  exists msg,
    gpt scrape_chatgpt sleep prompt country secondaryPrompt webSearch sync timeout st
    = (Raise (ValidationError msg), st).
Proof.
  intros Hok Hnone Hstr Hentry.
  destruct (gpt_prepare prompt country secondaryPrompt webSearch sync timeout)
    as [kw | e] eqn:Hp.
  - exfalso.
    apply gpt_prepare_iff in Hp as (Hps & _ & Hss & _ & _ & Hcsp & _).
    assert (Hin : In x (kw_additional_prompts kw)).
    { destruct Hss as [[Hl _] | [Hscalar Hrep]].
      - destruct Hentry as [[-> Hnl] | (l & -> & Hin)].
        + rewrite Hl in Hnl. discriminate.
        + injection Hl as <-. exact Hin.
      - destruct Hentry as [[-> _] | (l & -> & _)]; [| discriminate].
        rewrite Hrep.
        destruct Hps as [(s & _ & ->) | (_ & Hne & _)]; [left; reflexivity |].
        destruct (kw_prompts kw); [congruence | left; reflexivity]. }
    rewrite Forall_forall in Hcsp.
    destruct (Hcsp x Hin) as [-> | [t ->]]; discriminate.
  - eapply gpt_raises_ValidationError; eassumption.
Qed.

(** Lengths are checked before contents, in the order country, secondary
    prompt, web search, and the message names the parameter in snake
    case: for valid prompts, the first companion list of a wrong length
    decides the exception, whatever the entries of the companions and
    whatever the timeout. *)
Theorem gpt_length_error_names_parameter
        prompt prompts country secondaryPrompt webSearch sync timeout l
        (st : state W) :
  prompts_of prompt prompts ->
  length l <> length prompts ->
  let out := gpt scrape_chatgpt sleep prompt country secondaryPrompt webSearch
                 sync timeout st in
  (country = PList l -> out = (Raise (length_error "country"), st)) /\
  ((exists cs, broadcast_of (length prompts) country cs) ->
   secondaryPrompt = PList l ->
   out = (Raise (length_error "secondary_prompt"), st)) /\
  ((exists cs, broadcast_of (length prompts) country cs) ->
   (exists ss, broadcast_of (length prompts) secondaryPrompt ss) ->
   webSearch = PList l ->
   out = (Raise (length_error "web_search"), st)).
Proof.
  intros Hps Hlen out.
  apply normalize_prompts_iff in Hps.
  assert (Hbad : forall name,
             _normalize prompts (PList l) name = Raise (length_error name)).
  { intros name. apply _normalize_mismatch, Hlen. }
  split; [| split].
  - intros ->. apply gpt_rejected. unfold gpt_prepare.
    rewrite Hps; cbn [bind]. rewrite Hbad. reflexivity.
  - intros [cs Hcs] ->.
    apply (proj2 (_normalize_iff _ _ "country" _)) in Hcs.
    apply gpt_rejected. unfold gpt_prepare.
    rewrite Hps; cbn [bind]. rewrite Hcs; cbn [bind]. rewrite Hbad. reflexivity.
  - intros [cs Hcs] [ss Hss] ->.
    apply (proj2 (_normalize_iff _ _ "country" _)) in Hcs.
    apply (proj2 (_normalize_iff _ _ "secondary_prompt" _)) in Hss.
    apply gpt_rejected. unfold gpt_prepare.
    rewrite Hps; cbn [bind]. rewrite Hcs; cbn [bind]. rewrite Hss; cbn [bind].
    rewrite Hbad. reflexivity.
Qed.

(** An accepted call ends as its last delegate call ended: the value or
    the exception of [gpt] and the world it leaves are those of one call
    of the delegate with the prepared arguments, and that call is the
    last event logged.  Nothing is wrapped, nothing follows the last
    attempt, and the loop is never left without an outcome. *)
Theorem gpt_outcome_is_last_attempt
        prompt country secondaryPrompt webSearch sync timeout kw (st : state W) :
  gpt_prepare prompt country secondaryPrompt webSearch sync timeout = Return kw ->
  let out := gpt scrape_chatgpt sleep prompt country secondaryPrompt webSearch
                 sync timeout st in
  (exists w, scrape_chatgpt kw w = (fst out, world (snd out))) /\
  (exists evs, log (snd out) = log st ++ evs ++ [CallScrape kw]).
Proof.
  intros Hp out.
  assert (Hout : out = retry_loop scrape_chatgpt sleep (seq 0 max_retries) kw st).
  { unfold out, gpt. rewrite Hp. reflexivity. }
  rewrite retry_loop_range in Hout. rewrite Hout.
  destruct (raises_APIError (fst (attempt1 scrape_chatgpt kw st)));
    [destruct (raises_APIError (fst (attempt2 scrape_chatgpt sleep kw st))) |];
    cbn [fst snd after world log]; split.
  - eexists. unfold attempt3. apply surjective_pairing.
  - exists [CallScrape kw; Sleep 2; CallScrape kw; Sleep 2]. reflexivity.
  - eexists. unfold attempt2. apply surjective_pairing.
  - exists [CallScrape kw; Sleep 2]. reflexivity.
  - eexists. unfold attempt1. apply surjective_pairing.
  - exists []. reflexivity.
Qed.

End GptErrors.

(** ** [web]: further properties *)

Lemma check_query_iff query : check_query query = Return tt <-> query_ok query.
Proof.
  split.
  - unfold check_query.
    destruct (truthy query) eqn:Ht; cbn [negb]; [| discriminate].
    destruct query as [| b | n | s | l | t]; try discriminate.
    + rewrite truthy_strip.
      destruct (blank s) eqn:Hb; cbn [negb]; [discriminate |].
      intros _. left. eauto.
    + destruct (forallb nonblank_str l) eqn:Hall; cbn [negb]; [| discriminate].
      intros _. right. exists l. split; [reflexivity |].
      split; [destruct l; [discriminate | discriminate] |].
      apply Forall_forall. intros q Hq.
      rewrite forallb_forall in Hall. apply Hall in Hq.
      destruct q as [| b | n | s | l' | t]; try discriminate.
      cbn [nonblank_str] in Hq. rewrite truthy_strip in Hq.
      exists s. split; [reflexivity |].
      destruct (blank s); [discriminate | reflexivity].
  - intros [(s & -> & Hb) | (l & -> & Hne & Hall)].
    + apply check_query_string, Hb.
    + apply check_query_list; [exact Hne |].
      rewrite Forall_forall in Hall. exact Hall.
Qed.

Lemma check_query_Raise query e :
  check_query query = Raise e ->
  e = empty_query_error \/ e = blank_string_error \/
  e = list_element_error \/ e = wrong_type_error.
Proof.
  unfold check_query.
  destruct (truthy query); cbn [negb]; [| intros [= <-]; auto].
  destruct query as [| b | n | s | l | t]; try (intros [= <-]; auto).
  - destruct (negb (truthy (PStr (strip s)))); [intros [= <-]; auto | discriminate].
  - destruct (negb (forallb nonblank_str l)); [intros [= <-]; auto | discriminate].
Qed.

Section WebFurther.

Context {W : Type}.
Variable search : list pyval -> W -> result pyval * W.

(** Every way [web] can end.  Before any delegate call, in the state it
    started from: with what reading [serp_zone] raised (only when [zone] is
    falsy), with what reading [DEFAULT_MAX_WORKERS] raised (only when
    [max_workers] is falsy), or with one of the four query errors, a
    [ValueError] or a [TypeError].  Otherwise after exactly one delegate call
    with eleven positional arguments, whose value or exception, an
    [APIError] included, is [web]'s: there is no retry and no sleep. *)
Theorem web_outcome_cases
        (c : client) query search_engine zone response_format method country
        data_format async_request max_workers timeout parse (st : state W) :
  let out := web c search query search_engine zone response_format method country
                 data_format async_request max_workers timeout parse st in
  (exists e,
      out = (Raise e, st) /\
      ((truthy zone = false /\ serp_zone c = Raise e) \/
       (truthy max_workers = false /\ DEFAULT_MAX_WORKERS c = Raise e) \/
       e = empty_query_error \/ e = blank_string_error \/
       e = list_element_error \/ e = wrong_type_error))
  \/
  (exists zone' max_workers',
      or_else zone (serp_zone c) = Return zone' /\
      or_else max_workers (DEFAULT_MAX_WORKERS c) = Return max_workers' /\
      query_ok query /\
      let args := [query; search_engine; zone'; response_format; method; country;
                   data_format; async_request; max_workers'; timeout; parse] in
      out = (fst (search args (world st)),
             after (snd (search args (world st))) st [CallSearch args])).
Proof.
  intros out. subst out.
  destruct (or_else zone (serp_zone c)) as [zone' | e] eqn:Hz.
  - destruct (or_else max_workers (DEFAULT_MAX_WORKERS c)) as [mw' | e] eqn:Hm.
    + destruct (check_query query) as [[] | e] eqn:Hq.
      * right. exists zone', mw'.
        split; [reflexivity | split; [reflexivity |]].
        split; [apply check_query_iff, Hq |].
        apply web_accepted. unfold web_prepare. rewrite Hz, Hm, Hq. reflexivity.
      * left. exists e. split.
        -- apply web_rejected. unfold web_prepare. rewrite Hz, Hm, Hq. reflexivity.
        -- right. right. exact (check_query_Raise _ _ Hq).
    + left. exists e. split.
      * apply web_rejected. unfold web_prepare. rewrite Hz, Hm. reflexivity.
      * right. left. unfold or_else in Hm.
        destruct (truthy max_workers); [discriminate | auto].
  - left. exists e. split.
    + apply web_rejected. unfold web_prepare. rewrite Hz. reflexivity.
    + left. unfold or_else in Hz. destruct (truthy zone); [discriminate | auto].
Qed.

(** With the client's defaults readable: [web] calls the delegate exactly
    when the query is a string with a character that is not whitespace, or
    a non-empty list of such strings. *)
Theorem web_calls_delegate_iff_query_ok
        (c : client) query search_engine zone response_format method country
        data_format async_request max_workers timeout parse zone' max_workers'
        (st : state W) :
  or_else zone (serp_zone c) = Return zone' ->
  or_else max_workers (DEFAULT_MAX_WORKERS c) = Return max_workers' ->
  let args := [query; search_engine; zone'; response_format; method; country;
               data_format; async_request; max_workers'; timeout; parse] in
  log (snd (web c search query search_engine zone response_format method country
                data_format async_request max_workers timeout parse st))
  = log st ++ [CallSearch args]
  <-> query_ok query.
Proof.
  intros Hz Hm args.
  assert (Hprep : web_prepare c query search_engine zone response_format method
                    country data_format async_request max_workers timeout parse
                  = (check_query query ;;; Return args)).
  { unfold web_prepare. rewrite Hz, Hm. reflexivity. }
  rewrite <- check_query_iff. split.
  - intros Hlog. destruct (check_query query) as [[] | e] eqn:Hq; [reflexivity |].
    rewrite (web_rejected c search _ _ _ _ _ _ _ _ _ _ _ e st) in Hlog
      by (rewrite Hprep; reflexivity).
    cbn [snd] in Hlog. apply log_same_inv in Hlog. discriminate.
  - intros Hq.
    rewrite (web_accepted c search _ _ _ _ _ _ _ _ _ _ _ args st)
      by (rewrite Hprep, Hq; reflexivity).
    reflexivity.
Qed.

(** An explicit [zone] and [max_workers] make the client irrelevant: with
    both truthy, [web] does the same for any two clients, also for one
    whose attributes cannot be read. *)
Theorem web_explicit_zone_workers_ignore_client
        (c1 c2 : client) query search_engine zone response_format method country
        data_format async_request max_workers timeout parse (st : state W) :
  truthy zone = true -> truthy max_workers = true ->
  web c1 search query search_engine zone response_format method country
      data_format async_request max_workers timeout parse st
  = web c2 search query search_engine zone response_format method country
        data_format async_request max_workers timeout parse st.
Proof.
  intros Hz Hm. unfold web, web_prepare, or_else. rewrite Hz, Hm. reflexivity.
Qed.

End WebFurther.

(** ** Concrete runs of the further properties *)

(** The one call of [gpt(prompt="hi", country="US")]. *)
Lemma gpt_delegate_kwargs_invariant_witness :
  1 <= length (kw_prompts hi_US_kwargs) /\
  Forall (fun p => exists s, p = PStr s) (kw_prompts hi_US_kwargs) /\
  length (kw_countries hi_US_kwargs) = length (kw_prompts hi_US_kwargs) /\
  length (kw_additional_prompts hi_US_kwargs) = length (kw_prompts hi_US_kwargs) /\
  length (kw_web_searches hi_US_kwargs) = length (kw_prompts hi_US_kwargs) /\
  Forall country_ok (kw_countries hi_US_kwargs) /\
  Forall secondary_ok (kw_additional_prompts hi_US_kwargs) /\
  Forall web_search_ok (kw_web_searches hi_US_kwargs) /\
  positive_int (kw_timeout hi_US_kwargs).
Proof.
  exact (gpt_delegate_kwargs_invariant scripted no_sleep
           (PStr "hi") (PStr "US") PNone (PBool false) (PBool true) PNone idle
           [CallScrape hi_US_kwargs] hi_US_kwargs eq_refl (or_introl eq_refl)).
Defined.

(** The same call, with its arguments already broadcast. *)
Lemma gpt_broadcast_idempotent_witness :
  gpt scripted no_sleep (PList [PStr "hi"]) (PList [PStr "US"]) (PList [PNone])
      (PList [PBool false]) (PBool true) (PInt 65) idle
  = gpt scripted no_sleep (PStr "hi") (PStr "US") PNone (PBool false) (PBool true)
        PNone idle.
Proof.
  exact (gpt_broadcast_idempotent scripted no_sleep
           (PStr "hi") (PStr "US") PNone (PBool false) (PBool true) PNone
           hi_US_kwargs idle eq_refl).
Defined.

(** The integer 3 as [secondaryPrompt]. *)
Lemma gpt_secondary_prompt_str_or_None_witness :
  exists msg,
    gpt scripted no_sleep (PStr "hi") PNone (PInt 3) (PBool false) (PBool true) PNone
        idle
    = (Raise (ValidationError msg), idle).
Proof.
  apply (gpt_secondary_prompt_str_or_None scripted no_sleep (PStr "hi") PNone
           (PInt 3) (PBool false) (PBool true) PNone (PInt 3) idle
           eq_refl eq_refl eq_refl).
  left. split; reflexivity.
Defined.

(** Two prompts, one secondary prompt in a list, and a bad timeout that is
    never looked at. *)
Lemma gpt_length_error_names_parameter_witness :
  gpt scripted no_sleep (PList [PStr "a"; PStr "b"]) PNone (PList [PStr "more"])
      (PInt 1) (PBool true) (PInt 0) idle
  = (Raise (ValidationError
              "secondary_prompt list must have the same length as prompts."),
     idle).
Proof.
  assert (Hps : prompts_of (PList [PStr "a"; PStr "b"]) [PStr "a"; PStr "b"]).
  { right. split; [reflexivity | split; [discriminate |]].
    repeat constructor; eexists; reflexivity. }
  assert (Hlen : length [PStr "more"] <> length [PStr "a"; PStr "b"])
    by discriminate.
  apply (proj1 (proj2 (gpt_length_error_names_parameter scripted no_sleep
                         (PList [PStr "a"; PStr "b"]) [PStr "a"; PStr "b"]
                         PNone (PList [PStr "more"]) (PInt 1) (PBool true) (PInt 0)
                         [PStr "more"] idle Hps Hlen))).
  - exists [PNone; PNone]. right. split; reflexivity.
  - reflexivity.
Defined.

(** One [APIError], then an answer. *)
Lemma gpt_outcome_is_last_attempt_witness :
  (exists w, scripted hi_US_kwargs w = (Return (PInt 7), [])) /\
  (exists evs,
      [CallScrape hi_US_kwargs; Sleep 2; CallScrape hi_US_kwargs]
      = [] ++ evs ++ [CallScrape hi_US_kwargs]).
Proof.
  exact (gpt_outcome_is_last_attempt scripted no_sleep
           (PStr "hi") (PStr "US") PNone (PBool false) (PBool true) PNone
           hi_US_kwargs (start [Raise (APIError "busy"); Return (PInt 7)])
           eq_refl).
Defined.

(** The query "rocq" with the example client. *)
Lemma web_calls_delegate_iff_query_ok_witness :
  log (snd (web example_client echo_search (PStr "rocq") WebDefault.search_engine
                WebDefault.zone WebDefault.response_format WebDefault.method
                WebDefault.country WebDefault.data_format WebDefault.async_request
                WebDefault.max_workers WebDefault.timeout WebDefault.parse
                (start tt)))
  = log (start tt) ++
    [CallSearch [PStr "rocq"; PStr "google"; PStr "serp_zone_1"; PStr "raw";
                 PStr "GET"; PStr EmptyString; PStr "html"; PBool false; PInt 10;
                 PNone; PBool false]]
  <-> query_ok (PStr "rocq").
Proof.
  exact (web_calls_delegate_iff_query_ok echo_search example_client (PStr "rocq")
           WebDefault.search_engine WebDefault.zone WebDefault.response_format
           WebDefault.method WebDefault.country WebDefault.data_format
           WebDefault.async_request WebDefault.max_workers WebDefault.timeout
           WebDefault.parse (PStr "serp_zone_1") (PInt 10) (start tt)
           eq_refl eq_refl).
Defined.

(** An explicit zone and worker count, with and without a readable
    client. *)
Lemma web_explicit_zone_workers_ignore_client_witness :
  web example_client echo_search (PStr "rocq") WebDefault.search_engine
      (PStr "my_zone") WebDefault.response_format WebDefault.method
      WebDefault.country WebDefault.data_format WebDefault.async_request
      (PInt 4) WebDefault.timeout WebDefault.parse (start tt)
  = web bare_client echo_search (PStr "rocq") WebDefault.search_engine
        (PStr "my_zone") WebDefault.response_format WebDefault.method
        WebDefault.country WebDefault.data_format WebDefault.async_request
        (PInt 4) WebDefault.timeout WebDefault.parse (start tt).
Proof.
  exact (web_explicit_zone_workers_ignore_client echo_search
           example_client bare_client (PStr "rocq") WebDefault.search_engine
           (PStr "my_zone") WebDefault.response_format WebDefault.method
           WebDefault.country WebDefault.data_format WebDefault.async_request
           (PInt 4) WebDefault.timeout WebDefault.parse (start tt)
           eq_refl eq_refl).
Defined.
(** ** Concrete runs: the timeout and the two ways a call goes *)

(** The keyword arguments of [gpt(prompt="hi")] when [sync] is [sync] and
    the delegate is to get [timeout]. *)
Definition hi_kwargs (sync timeout : pyval) : scrape_kwargs :=
  {| kw_prompts := [PStr "hi"];
     kw_countries := [PNone];
     kw_additional_prompts := [PNone];
     kw_web_searches := [PBool false];
     kw_sync := sync;
     kw_timeout := timeout |}.

Lemma hi_valid_broadcast :
  valid_broadcast (PStr "hi") PNone PNone (PBool false)
                  [PStr "hi"] [PNone] [PNone] [PBool false].
Proof.
  unfold valid_broadcast. repeat split.
  - left. exists "hi". split; reflexivity.
  - right. split; reflexivity.
  - right. split; reflexivity.
  - right. split; reflexivity.
  - constructor; [left; reflexivity | constructor].
  - constructor; [left; reflexivity | constructor].
  - constructor; [exists false; reflexivity | constructor].
Defined.


(** An accepted call whose first attempt raises [APIError]: two calls,
    one sleep, the second call's value. *)
Lemma gpt_validates_before_delegating_witness :
  gpt scripted no_sleep (PStr "hi") PNone PNone (PBool false) (PBool true) PNone
      (start [Raise (APIError "busy"); Return (PInt 7)])
  = (Return (PInt 7),
     {| world := [];
        log := [CallScrape (hi_kwargs (PBool true) (PInt 65)); Sleep 2;
                CallScrape (hi_kwargs (PBool true) (PInt 65))] |}).
Proof.
  destruct (gpt_validates_before_delegating scripted no_sleep
              (PStr "hi") PNone PNone (PBool false) (PBool true) PNone
              (start [Raise (APIError "busy"); Return (PInt 7)]))
    as [(e & Hp & _) | (kw & Hp & Hout)].
  - cbv in Hp. discriminate Hp.
  - cbv in Hp. injection Hp as <-. exact Hout.
Defined.

(** [timeout=False] is rejected; [timeout=True] reaches the delegate as
    [True]. *)
Lemma gpt_bool_timeout_as_int_witness :
  (exists msg,
      gpt scripted no_sleep (PStr "hi") PNone PNone (PBool false) (PBool true)
          (PBool false) idle
      = (Raise (ValidationError msg), idle)) /\
  gpt scripted no_sleep (PStr "hi") PNone PNone (PBool false) (PBool true)
      (PBool true) (start [Return (PInt 7)])
  = (Return (PInt 7),
     {| world := [];
        log := [CallScrape (hi_kwargs (PBool true) (PBool true))] |}).
Proof.
  split.
  - exact (proj1 (gpt_bool_timeout_as_int scripted no_sleep) (PStr "hi") PNone PNone
                  (PBool false) (PBool true) idle eq_refl).
  - exact (proj1 (proj2 (proj2 (gpt_bool_timeout_as_int scripted no_sleep)
                           (PStr "hi") PNone PNone (PBool false) (PBool true)
                           [PStr "hi"] [PNone] [PNone] [PBool false]
                           (start [Return (PInt 7)]) hi_valid_broadcast))
             eq_refl).
Defined.

(** The countries ["US", "us", "zz"]: the error quotes "us".  The
    countries ["US", 5, "us"]: a [TypeError], and "us" is never reached. *)
Lemma gpt_first_bad_country_decides_witness :
  gpt scripted no_sleep (PList [PStr "a"; PStr "b"; PStr "c"])
      (PList [PStr "US"; PStr "us"; PStr "zz"]) PNone (PBool false) (PBool true)
      PNone idle
  = (Raise (ValidationError "Invalid country code 'us'. Must be 2 uppercase letters."),
     idle) /\
  exists msg,
    gpt scripted no_sleep (PList [PStr "a"; PStr "b"; PStr "c"])
        (PList [PStr "US"; PInt 5; PStr "us"]) PNone (PBool false) (PBool true)
        PNone idle
    = (Raise (TypeError msg), idle).
Proof.
  assert (Hps : prompts_of (PList [PStr "a"; PStr "b"; PStr "c"])
                           [PStr "a"; PStr "b"; PStr "c"]).
  { right. split; [reflexivity | split; [discriminate |]].
    repeat constructor; eexists; reflexivity. }
  assert (Hss : exists ss, broadcast_of 3 PNone ss).
  { exists [PNone; PNone; PNone]. right. split; reflexivity. }
  assert (Hws : exists ws, broadcast_of 3 (PBool false) ws).
  { exists [PBool false; PBool false; PBool false]. right. split; reflexivity. }
  assert (Hpre : Forall country_ok [PStr "US"]).
  { constructor; [| constructor]. right. exists "US". split; reflexivity. }
  split.
  - apply (proj1 (gpt_first_bad_country_decides scripted no_sleep
                    (PList [PStr "a"; PStr "b"; PStr "c"])
                    [PStr "a"; PStr "b"; PStr "c"]
                    (PList [PStr "US"; PStr "us"; PStr "zz"]) PNone (PBool false)
                    (PBool true) PNone [PStr "US"] (PStr "us") [PStr "zz"] idle
                    Hps (or_introl (conj eq_refl eq_refl)) Hss Hws Hpre) "us").
    + reflexivity.
    + discriminate.
    + reflexivity.
  - apply (proj2 (gpt_first_bad_country_decides scripted no_sleep
                    (PList [PStr "a"; PStr "b"; PStr "c"])
                    [PStr "a"; PStr "b"; PStr "c"]
                    (PList [PStr "US"; PInt 5; PStr "us"]) PNone (PBool false)
                    (PBool true) PNone [PStr "US"] (PInt 5) [PStr "us"] idle
                    Hps (or_introl (conj eq_refl eq_refl)) Hss Hws Hpre)).
    + reflexivity.
    + reflexivity.
Defined.
